(** * databricks_client.py: the DatabricksClient wrapper and its SQL-result
      normalization, embedded as Rocq functions.

    Python values are modelled by [pyval]; a Python [str] is the list of its
    code points, [bytes] the list of its byte values.  Code that can raise
    runs in the exception monad [exc]; [try_except] is Python's
    [try: ... except Exception as e: ...].  A [dict] keeps insertion order
    and is an association list updated in place. *)

From Stdlib Require Import String List ZArith Bool Lia Ascii.
From Stdlib Require Import DecimalString DecimalNat FinFun.
Import ListNotations.

Local Open Scope Z_scope.
#[local] Set Warnings "-register-all".

(* ------------------------------------------------------------------ *)
(** ** Python values *)

(** A [str]: its code points, each in 0 .. 0x10FFFF (lone surrogates
    included, as in Python). *)
Definition pystr := list Z.

(** A [bytes] object: its byte values, each in 0 .. 255. *)
Definition pybytes := list Z.

(** A string literal of the source. *)
Definition lit (s : string) : pystr :=
  map (fun a => Z.of_nat (nat_of_ascii a)) (list_ascii_of_string s).

Definition pystr_eq_dec : forall a b : pystr, {a = b} + {a <> b} :=
  list_eq_dec Z.eq_dec.

Inductive pyval : Type :=
| PyNone
| PyBool (b : bool)
| PyInt (n : Z)
| PyStr (s : pystr)
| PyBytes (b : pybytes)
| PyList (items : list pyval)
| PyDict (entries : list (pystr * pyval)).

(** Python truthiness ([if x:], [not x], [x and y]). *)
Definition truthy (v : pyval) : bool :=
  match v with
  | PyNone => false
  | PyBool b => b
  | PyInt n => negb (n =? 0)
  | PyStr s => negb (Nat.eqb (length s) 0)
  | PyBytes b => negb (Nat.eqb (length b) 0)
  | PyList l => negb (Nat.eqb (length l) 0)
  | PyDict d => negb (Nat.eqb (length d) 0)
  end.

(** [str(i)] for a non-negative [int]: decimal digits, no leading zero. *)
Definition str_of_nat (i : nat) : pystr :=
  lit (NilEmpty.string_of_uint (Nat.to_uint i)).

(* ------------------------------------------------------------------ *)
(** ** Exceptions *)

(** The code reads only [str(e)] of an exception it catches. *)
Definition exn := pystr.

Inductive exc (A : Type) : Type :=
| Ret (a : A)
| Raise (e : exn).
Arguments Ret {A} a.
Arguments Raise {A} e.

Definition bind {A B : Type} (m : exc A) (k : A -> exc B) : exc B :=
  match m with
  | Ret a => k a
  | Raise e => Raise e
  end.

Notation "x <- m ;; k" := (bind m (fun x => k))
  (at level 61, m at next level, right associativity).

(** [try: body  except Exception as e: handler e]. *)
Definition try_except {A : Type} (body : exc A) (handler : exn -> exc A) : exc A :=
  match body with
  | Ret a => Ret a
  | Raise e => handler e
  end.

(** [[f x for x in xs]], stopping at the first [f x] that raises. *)
Fixpoint comprehension {A B : Type} (f : A -> exc B) (xs : list A) : exc (list B) :=
  match xs with
  | [] => Ret []
  | x :: xs' => y <- f x ;; ys <- comprehension f xs' ;; Ret (y :: ys)
  end.

(* ------------------------------------------------------------------ *)
(** ** Ordered dictionaries *)

Definition dict := list (pystr * pyval).

(** [d[k] = v]: an existing key keeps its position and takes the new value,
    a new key goes last. *)
Fixpoint dict_set (d : dict) (k : pystr) (v : pyval) : dict :=
  match d with
  | [] => [(k, v)]
  | (k', v') :: d' =>
      if pystr_eq_dec k' k then (k', v) :: d' else (k', v') :: dict_set d' k v
  end.

Fixpoint dict_get (d : dict) (k : pystr) : option pyval :=
  match d with
  | [] => None
  | (k', v') :: d' => if pystr_eq_dec k' k then Some v' else dict_get d' k
  end.

(** [list(d.keys())] and [list(d.values())], in insertion order. *)
Definition dict_keys (d : dict) : list pystr := map fst d.
Definition dict_values (d : dict) : list pyval := map snd d.

(* ------------------------------------------------------------------ *)
(** ** Duck-typed attributes *)

(** What reading an attribute that the code probes with [hasattr] can do. *)
Inductive attr (A : Type) : Type :=
| Missing            (* no such attribute: AttributeError, [hasattr] is False *)
| Faulty (e : exn)   (* a property whose getter raises another exception *)
| IsNone             (* the attribute is None *)
| Has (a : A).       (* the attribute is an object (truthy) *)
Arguments Missing {A}.
Arguments Faulty {A} e.
Arguments IsNone {A}.
Arguments Has {A} a.

Definition hasattr {A : Type} (a : attr A) : exc bool :=
  match a with
  | Missing => Ret false
  | Faulty e => Raise e
  | IsNone | Has _ => Ret true
  end.

Definition getattr {A : Type} (a : attr A) : exc (option A) :=
  match a with
  | Missing => Raise (lit "AttributeError")
  | Faulty e => Raise e
  | IsNone => Ret None
  | Has x => Ret (Some x)
  end.

(** [hasattr(o, 'a') and o.a], as a condition: the object when the test
    passes, [None] when it does not. *)
Definition has_and_truthy {A : Type} (a : attr A) : exc (option A) :=
  h <- hasattr a ;; if (h : bool) then getattr a else Ret None.

(* ------------------------------------------------------------------ *)
(** ** The statement result (lines 239-272) *)

(** A column descriptor: reading [col.name] gives a name, a [str] as in the
    specification's ColumnSchema, or raises. *)
Record ColumnInfo := { name : exc pystr }.

(** A schema: reading and iterating [schema.columns] gives the column
    descriptors or raises (no such attribute, or [None]). *)
Record ResultSchema := { columns : exc (list ColumnInfo) }.

Record ResultManifest := { manifest_schema : attr ResultSchema }.

(** A row of [data_array]: a list of scalar values, or [None], which neither
    [len] nor [enumerate] accepts. *)
Inductive row : Type :=
| Row (values : list pyval)
| NullRow.

(** [statement.result]. *)
Record ResultData := {
  schema : attr ResultSchema;
  manifest : attr ResultManifest;
  data_array : option (list row)
}.

(** [f"col_{i}"]. *)
Definition col_name (i : nat) : pystr := (lit "col_" ++ str_of_nat i)%list.

(** [[col.name for col in s.columns]] (lines 251 and 256). *)
Definition schema_names (s : ResultSchema) : exc (list pystr) :=
  cols <- columns s ;; comprehension name cols.

(** The body of the inner [try] (lines 250-257); [columns] starts as [[]]. *)
Definition probe_columns (r : ResultData) : exc (list pystr) :=
  s <- has_and_truthy (schema r) ;;
  match s with
  | Some sch => schema_names sch
  | None =>
      m <- has_and_truthy (manifest r) ;;
      match m with
      | Some man =>
          h <- hasattr (manifest_schema man) ;;
          if (h : bool) then
            ms <- getattr (manifest_schema man) ;;
            match ms with
            | Some sch => schema_names sch
            | None => Raise (lit "AttributeError")
            end
          else Ret []
      | None => Ret []
      end
  end.

Definition row_len (r : row) : exc nat :=
  match r with
  | Row values => Ret (length values)
  | NullRow => Raise (lit "TypeError")
  end.

(** The [except] handler of the inner [try] (lines 259-264), entered with
    [columns = []]. *)
Definition generic_columns (rows : list row) : exc (list pystr) :=
  match rows with
  | [] => Ret []
  | first_row :: _ => n <- row_len first_row ;; Ret (map col_name (seq 0 n))
  end.

(** Lines 248-264. *)
Definition resolve_columns (r : ResultData) (rows : list row) : exc (list pystr) :=
  try_except (probe_columns r) (fun _ => generic_columns rows).

(** [columns[i] if i < len(columns) else f"col_{i}"] (line 270). *)
Definition column_name (columns : list pystr) (i : nat) : pystr :=
  match nth_error columns i with
  | Some c => c
  | None => col_name i
  end.

(** The inner loop [for i, value in enumerate(row)] (lines 269-271), from
    index [i] on. *)
Fixpoint fill_row (columns : list pystr) (i : nat) (values : list pyval)
    (row_dict : dict) : dict :=
  match values with
  | [] => row_dict
  | value :: rest =>
      fill_row columns (S i) rest (dict_set row_dict (column_name columns i) value)
  end.

(** One iteration of the outer loop (lines 268-272). *)
Definition row_record (columns : list pystr) (r : row) : exc dict :=
  match r with
  | Row values => Ret (fill_row columns 0 values [])
  | NullRow => Raise (lit "TypeError")
  end.

(** The outer loop (lines 267-272). *)
Definition process_rows (columns : list pystr) (rows : list row) : exc (list dict) :=
  comprehension (row_record columns) rows.

(** Lines 241-272: [result_data] for a present [statement.result]. *)
Definition normalize (r : ResultData) : exc (list dict) :=
  match data_array r with
  | None | Some [] => Ret []
  | Some rows => cols <- resolve_columns r rows ;; process_rows cols rows
  end.

(** A schema object holding the given names. *)
Definition schema_of (names : list pystr) : ResultSchema :=
  {| columns := Ret (map (fun n => {| name := Ret n |}) names) |}.

(* ------------------------------------------------------------------ *)
(** ** Codecs of the Python library *)

(** [s.encode('utf-8')] of one code point; surrogates are refused. *)
Definition utf8_of_code_point (c : Z) : exc pybytes :=
  if c <? 0x80 then Ret [c]
  else if c <? 0x800 then
    Ret [Z.lor 0xC0 (Z.shiftr c 6); Z.lor 0x80 (Z.land c 0x3F)]
  else if (0xD800 <=? c) && (c <=? 0xDFFF) then Raise (lit "UnicodeEncodeError")
  else if c <? 0x10000 then
    Ret [Z.lor 0xE0 (Z.shiftr c 12);
         Z.lor 0x80 (Z.land (Z.shiftr c 6) 0x3F);
         Z.lor 0x80 (Z.land c 0x3F)]
  else
    Ret [Z.lor 0xF0 (Z.shiftr c 18);
         Z.lor 0x80 (Z.land (Z.shiftr c 12) 0x3F);
         Z.lor 0x80 (Z.land (Z.shiftr c 6) 0x3F);
         Z.lor 0x80 (Z.land c 0x3F)].

(** [s.encode('utf-8')], also [s.encode()]. *)
Definition encode_utf8 (s : pystr) : exc pybytes :=
  chunks <- comprehension utf8_of_code_point s ;; Ret (concat chunks).


(* ------------------------------------------------------------------ *)
(** ** The SDK objects the client reads *)

(** An iterator of the SDK: the items it yields, then the exception it
    raises, if any. *)
Definition stream (A : Type) : Type := (list A * option exn)%type.

(** [for x in s: acc = body acc x]. *)
Definition for_each {A S : Type} (s : stream A) (body : S -> A -> S) (init : S) : exc S :=
  match snd s with
  | None => Ret (fold_left body (fst s) init)
  | Some e => Raise e
  end.

(** [list(s)]. *)
Definition to_list {A : Type} (s : stream A) : exc (list A) :=
  for_each s (fun acc x => (acc ++ [x])%list) [].

Record User := { user_name : pyval }.

(** [object_type] and [language] are enum members (their [.value] is kept)
    or [None]. *)
Record ObjectInfo := {
  path : pyval;
  object_type : option pyval;
  language : option pyval
}.

(** [exported_content.content]: typed [str] by the SDK; the code also
    expects [bytes]. *)
Inductive Content : Type :=
| ContentStr (s : pystr)
| ContentBytes (b : pybytes).

Record ExportResponse := { content : option Content }.

Record EndpointInfo := { endpoint_id : pyval }.

Inductive StatementState : Type :=
| CANCELED | CLOSED | FAILED | PENDING | RUNNING | SUCCEEDED.

Record ServiceError := { message : pystr }.

Record StatementStatus := {
  state : StatementState;
  error : option ServiceError
}.

Record StatementResponse := {
  status : option StatementStatus;
  result : option ResultData;
  statement_id : pyval
}.

Record ClusterDetails := {
  cluster_id : pyval;
  cluster_name : pyval;
  cluster_state : option pyval;
  node_type_id : pyval
}.

(** The calls of [self.workspace_client] that the methods make; each returns
    or raises. *)
Record WorkspaceClient := {
  current_user_me : exc User;
  workspace_upload : pystr -> pystr -> bool -> exc unit;
  workspace_list : pystr -> exc (stream ObjectInfo);
  workspace_export : pystr -> exc (option ExportResponse);
  warehouses_list : exc (stream EndpointInfo);
  execute_statement : pyval -> pystr -> exc StatementResponse;
  clusters_list : exc (stream ClusterDetails)
}.

Record DatabricksClient := {
  host : pystr;
  token : pystr;
  workspace_client : WorkspaceClient
}.

(** [f"{state}"] of an enum member. *)
Definition state_str (s : StatementState) : pystr :=
  (lit "StatementState." ++
   match s with
   | CANCELED => lit "CANCELED" | CLOSED => lit "CLOSED" | FAILED => lit "FAILED"
   | PENDING => lit "PENDING" | RUNNING => lit "RUNNING" | SUCCEEDED => lit "SUCCEEDED"
   end)%list.

Definition is_succeeded (s : StatementState) : bool :=
  match s with SUCCEEDED => true | _ => false end.



(** The dictionary of every [except] branch that returns one. *)
Definition failure (e : exn) : pyval :=
  PyDict [(lit "success", PyBool false); (lit "error", PyStr e)].

(** [o.attr] of an object that may be [None]. *)
Definition deref {A : Type} (o : option A) : exc A :=
  match o with
  | Some a => Ret a
  | None => Raise (lit "AttributeError")
  end.

(* ------------------------------------------------------------------ *)
(** ** The methods of [DatabricksClient] *)

Section Client.

(** [base64.b64encode(b).decode('utf-8')], and [binascii.a2b_base64], the
    decoder behind [base64.b64decode]: both belong to the Python library. *)
Variable b64encode : pybytes -> pystr.
Variable a2b_base64 : pybytes -> exc pybytes.

Variable self : DatabricksClient.



(** Lines 64-100. *)
Definition upload_file_to_workspace (file_content : pybytes) (workspace_path : pystr)
    (overwrite : bool) : exc pyval :=
  try_except
    (let encoded_content := b64encode file_content in
     _ <- workspace_upload (workspace_client self) workspace_path encoded_content overwrite ;;
     Ret (PyDict [(lit "success", PyBool true);
                  (lit "path", PyStr workspace_path);
                  (lit "message",
                   PyStr (lit "File uploaded successfully to " ++ workspace_path)%list)]))
    (fun e => Ret (failure e)).

(** Lines 102-134. *)
Definition create_notebook_from_template (notebook_path : pystr)
    (template_content : pystr) (overwrite : bool) : exc pyval :=
  try_except
    (encoded <- encode_utf8 template_content ;;
     _ <- workspace_upload (workspace_client self) notebook_path (b64encode encoded) overwrite ;;
     Ret (PyDict [(lit "success", PyBool true);
                  (lit "path", PyStr notebook_path);
                  (lit "message",
                   PyStr (lit "Notebook created successfully at " ++ notebook_path)%list)]))
    (fun e => Ret (failure e)).




(** Lines 218-226: the warehouse to use, or the dictionary returned early. *)
Definition choose_warehouse (warehouse_id : pyval) : exc (pyval + pyval) :=
  if negb (truthy warehouse_id) then
    ws <- warehouses_list (workspace_client self) ;;
    warehouses <- to_list ws ;;
    match warehouses with
    | [] => Ret (inl (PyDict [(lit "success", PyBool false);
                              (lit "error", PyStr (lit "No SQL warehouses available"))]))
    | w :: _ => Ret (inr (endpoint_id w))
    end
  else Ret (inr warehouse_id).

(** Lines 282-284. *)
Definition error_msg (st : StatementStatus) : pystr :=
  (lit "Query failed with state: " ++ state_str (state st) ++
   match error st with
   | Some err => lit ", Error: " ++ message err
   | None => []
   end)%list.

(** Lines 202-298. *)
Definition execute_sql_query (sql_query : pystr) (warehouse_id : pyval) : exc pyval :=
  try_except
    (chosen <- choose_warehouse warehouse_id ;;
     match chosen with
     | inl early => Ret early
     | inr warehouse_id =>
         statement <- execute_statement (workspace_client self) warehouse_id sql_query ;;
         st <- deref (status statement) ;;
         if is_succeeded (state st) then
           result_data <- match result statement with
                          | Some r => normalize r
                          | None => Ret []
                          end ;;
           Ret (PyDict [(lit "success", PyBool true);
                        (lit "data", PyList (map PyDict result_data));
                        (lit "statement_id", statement_id statement);
                        (lit "warehouse_id", warehouse_id)])
         else
           Ret (PyDict [(lit "success", PyBool false);
                        (lit "error", PyStr (error_msg st));
                        (lit "statement_id", statement_id statement)])
     end)
    (fun e => Ret (failure e)).





End Client.

(* ------------------------------------------------------------------ *)
(** ** Vocabulary of the specification *)

(** The names the loop of line 270 gives to the positions [0 .. n-1] of a
    row. *)
Definition row_names (columns : list pystr) (n : nat) : list pystr :=
  map (column_name columns) (seq 0 n).

(** An attribute that is absent or falsy. *)
Definition absent {A : Type} (a : attr A) : Prop :=
  match a with
  | Missing | IsNone => True
  | Faulty _ | Has _ => False
  end.

(** Where a schema object sits in the result: directly, or under the
    manifest when there is no direct one. *)
Inductive schema_at (r : ResultData) (s : ResultSchema) : Prop :=
| Direct : schema r = Has s -> schema_at r s
| Nested (m : ResultManifest) :
    absent (schema r) -> manifest r = Has m -> manifest_schema m = Has s ->
    schema_at r s.

(** No schema at either location. *)
Definition no_schema (r : ResultData) : Prop :=
  absent (schema r) /\
  match manifest r with
  | Missing | IsNone => True
  | Has m => absent (manifest_schema m)
  | Faulty _ => False
  end.

(** The record of a row under the synthetic names alone. *)
Definition generic_record (values : list pyval) : dict :=
  combine (map col_name (seq 0 (length values))) values.

(** A RowRecord read back as a one-row result: its keys as the direct
    schema, its values as the row. *)
Definition as_result (rec : dict) : ResultData :=
  {| schema := Has (schema_of (dict_keys rec));
     manifest := Missing;
     data_array := Some [Row (dict_values rec)] |}.


(** A result dictionary with a [success] flag. *)
Definition success_flag (v : pyval) : option pyval :=
  match v with
  | PyDict d => dict_get d (lit "success")
  | _ => None
  end.





(** A surrogate code point, which UTF-8 cannot encode. *)
Definition surrogate (c : Z) : Prop := 0xD800 <= c <= 0xDFFF.

(** An SDK whose every call raises [e]. *)
Definition failing_sdk (e : exn) : WorkspaceClient :=
  {| current_user_me := Raise e;
     workspace_upload := fun _ _ _ => Raise e;
     workspace_list := fun _ => Raise e;
     workspace_export := fun _ => Raise e;
     warehouses_list := Raise e;
     execute_statement := fun _ _ => Raise e;
     clusters_list := Raise e |}.

(** The same SDK, answering [execute_statement] with [statement]. *)
Definition with_statement (statement : StatementResponse) (wc : WorkspaceClient)
  : WorkspaceClient :=
  {| current_user_me := current_user_me wc;
     workspace_upload := workspace_upload wc;
     workspace_list := workspace_list wc;
     workspace_export := workspace_export wc;
     warehouses_list := warehouses_list wc;
     execute_statement := fun _ _ => Ret statement;
     clusters_list := clusters_list wc |}.


(** A client over the SDK [wc]. *)
Definition client_of (wc : WorkspaceClient) : DatabricksClient :=
  {| host := lit "https://adb.example.net"; token := lit "dapi"; workspace_client := wc |}.

(* ------------------------------------------------------------------ *)
(** ** The constructor (lines 19-41) *)

(** [os.getenv]: the value of an environment variable, when it is set. *)
Definition environ := pystr -> option pystr.

(** Truthiness of an optional [str]: [None] and the empty string are
    falsy. *)
Definition provided (s : option pystr) : bool :=
  match s with
  | Some (_ :: _) => true
  | Some [] | None => false
  end.

(** [a or b]. *)
Definition py_or (a b : option pystr) : option pystr :=
  if provided a then a else b.

(** The characters of a [str] that is known not to be [None]. *)
Definition str_value (s : option pystr) : pystr :=
  match s with
  | Some v => v
  | None => []
  end.

(** The attributes [__init__] sets: those the methods read, and the
    headers. *)
Record Instance := {
  fields : DatabricksClient;
  headers : dict
}.

(** [__init__]; [connect host token] stands for the SDK's
    [WorkspaceClient(config=Config(host=host, token=token))]. *)
Definition __init__ (connect : pystr -> pystr -> exc WorkspaceClient) (getenv : environ)
    (host_arg token_arg : option pystr) : exc Instance :=
  let self_host := py_or host_arg (getenv (lit "DATABRICKS_HOST")) in
  let self_token := py_or token_arg (getenv (lit "DATABRICKS_TOKEN")) in
  if negb (provided self_host) || negb (provided self_token) then
    Raise (lit "Databricks host and token must be provided")
  else
    wc <- connect (str_value self_host) (str_value self_token) ;;
    Ret {| fields := {| host := str_value self_host;
                        token := str_value self_token;
                        workspace_client := wc |};
           headers := [(lit "Authorization",
                        PyStr (lit "Bearer " ++ str_value self_token)%list);
                       (lit "Content-Type", PyStr (lit "application/json"))] |}.

(* ------------------------------------------------------------------ *)
(** ** Further vocabulary *)

(** The distinct elements of a list of names, each at its first
    occurrence. *)
Definition first_occurrences (names : list pystr) : list pystr :=
  fold_left (fun seen n => if in_dec pystr_eq_dec n seen then seen else (seen ++ [n])%list)
            names [].


(** The dictionary returned when no warehouse is listed (lines 221-224). *)
Definition no_warehouse : pyval :=
  PyDict [(lit "success", PyBool false);
          (lit "error", PyStr (lit "No SQL warehouses available"))].

(** The same SDK, listing the warehouses [ws]. *)
Definition with_warehouses (ws : stream EndpointInfo) (wc : WorkspaceClient)
  : WorkspaceClient :=
  {| current_user_me := current_user_me wc;
     workspace_upload := workspace_upload wc;
     workspace_list := workspace_list wc;
     workspace_export := workspace_export wc;
     warehouses_list := Ret ws;
     execute_statement := execute_statement wc;
     clusters_list := clusters_list wc |}.

(** The same SDK, accepting every upload. *)
Definition with_upload (wc : WorkspaceClient) : WorkspaceClient :=
  {| current_user_me := current_user_me wc;
     workspace_upload := fun _ _ _ => Ret tt;
     workspace_list := workspace_list wc;
     workspace_export := workspace_export wc;
     warehouses_list := warehouses_list wc;
     execute_statement := execute_statement wc;
     clusters_list := clusters_list wc |}.

(** The columns the loop of lines 267-272 ends up using: those of the inner
    [try] when it returns, none when it raises. *)
Definition effective_columns (r : ResultData) : list pystr :=
  match probe_columns r with
  | Ret cols => cols
  | Raise _ => []
  end.

(* ------------------------------------------------------------------ *)
(** ** Literals and synthetic names *)

Lemma lit_inj (s t : string) : lit s = lit t -> s = t.
Proof.
  unfold lit. intros H.
  rewrite <- (string_of_list_ascii_of_string s), <- (string_of_list_ascii_of_string t).
  f_equal.
  revert H. generalize (list_ascii_of_string s) (list_ascii_of_string t).
  induction l as [|a l IH]; intros [|b l'] H; simpl in H; try discriminate; auto.
  injection H as Hab Hl. f_equal; auto.
  apply Nat2Z.inj in Hab.
  rewrite <- (ascii_nat_embedding a), <- (ascii_nat_embedding b). now rewrite Hab.
Qed.

Lemma str_of_nat_inj (i j : nat) : str_of_nat i = str_of_nat j -> i = j.
Proof.
  unfold str_of_nat. intros H. apply lit_inj in H.
  apply Unsigned.to_uint_inj.
  assert (E : NilEmpty.uint_of_string (NilEmpty.string_of_uint (Nat.to_uint i))
            = NilEmpty.uint_of_string (NilEmpty.string_of_uint (Nat.to_uint j)))
    by now rewrite H.
  rewrite !NilEmpty.usu in E. now injection E.
Qed.

Lemma col_name_inj (i j : nat) : col_name i = col_name j -> i = j.
Proof.
  unfold col_name. intros H. apply app_inv_head in H. now apply str_of_nat_inj.
Qed.

Lemma col_names_NoDup (i n : nat) : NoDup (map col_name (seq i n)).
Proof.
  apply Injective_map_NoDup.
  - intros a b. apply col_name_inj.
  - apply seq_NoDup.
Qed.

(* ------------------------------------------------------------------ *)
(** ** Ordered dictionaries: assignment *)

Lemma dict_set_fresh (d : dict) (k : pystr) (v : pyval) :
  ~ In k (dict_keys d) -> dict_set d k v = (d ++ [(k, v)])%list.
Proof.
  induction d as [|[k' v'] d IH]; simpl; intros H; [reflexivity|].
  destruct (pystr_eq_dec k' k) as [->|Hne].
  - exfalso. apply H. now left.
  - f_equal. apply IH. intros Hin. apply H. now right.
Qed.

Lemma dict_set_keys_in (d : dict) (k : pystr) (v : pyval) :
  In k (dict_keys d) -> dict_keys (dict_set d k v) = dict_keys d.
Proof.
  induction d as [|[k' v'] d IH]; simpl; intros H; [contradiction|].
  destruct (pystr_eq_dec k' k) as [->|Hne]; simpl; [reflexivity|].
  f_equal. apply IH. destruct H; [contradiction | assumption].
Qed.

Lemma dict_set_keys (d : dict) (k k0 : pystr) (v : pyval) :
  In k0 (dict_keys (dict_set d k v)) <-> In k0 (dict_keys d) \/ k0 = k.
Proof.
  destruct (in_dec pystr_eq_dec k (dict_keys d)) as [Hin|Hnin].
  - rewrite dict_set_keys_in by assumption. split; [now left|].
    intros [H | ->]; assumption.
  - rewrite dict_set_fresh by assumption. unfold dict_keys.
    rewrite map_app, in_app_iff. simpl. split.
    + intros [H | [H | []]]; [now left | now right].
    + intros [H | H]; [now left | right; now left].
Qed.

Lemma dict_set_NoDup (d : dict) (k : pystr) (v : pyval) :
  NoDup (dict_keys d) -> NoDup (dict_keys (dict_set d k v)).
Proof.
  intros Hd. destruct (in_dec pystr_eq_dec k (dict_keys d)) as [Hin|Hnin].
  - now rewrite dict_set_keys_in.
  - rewrite dict_set_fresh by assumption. unfold dict_keys. rewrite map_app. simpl.
    apply NoDup_app; [assumption | repeat constructor; intros [] | ].
    intros x Hx [<- | []]. contradiction.
Qed.

Lemma dict_get_set_eq (d : dict) (k : pystr) (v : pyval) :
  dict_get (dict_set d k v) k = Some v.
Proof.
  induction d as [|[k' v'] d IH]; simpl.
  - destruct (pystr_eq_dec k k); [reflexivity | contradiction].
  - destruct (pystr_eq_dec k' k) as [->|Hne]; simpl.
    + destruct (pystr_eq_dec k k); [reflexivity | contradiction].
    + destruct (pystr_eq_dec k' k); [contradiction | assumption].
Qed.

Lemma dict_get_set_ne (d : dict) (k k0 : pystr) (v : pyval) :
  k <> k0 -> dict_get (dict_set d k v) k0 = dict_get d k0.
Proof.
  intros Hne. induction d as [|[k' v'] d IH]; simpl.
  - destruct (pystr_eq_dec k k0); [contradiction | reflexivity].
  - destruct (pystr_eq_dec k' k) as [->|Hk]; simpl.
    + destruct (pystr_eq_dec k k0); [contradiction | reflexivity].
    + destruct (pystr_eq_dec k' k0); [reflexivity | assumption].
Qed.

(* ------------------------------------------------------------------ *)
(** ** The names given to the positions of a row *)

Lemma column_name_in_range (pre names : list pystr) :
  map (column_name (pre ++ names)) (seq (length pre) (length names)) = names.
Proof.
  revert pre. induction names as [|a names IH]; intros pre; simpl; [reflexivity|].
  f_equal.
  - unfold column_name. rewrite nth_error_app2 by lia.
    now rewrite Nat.sub_diag.
  - specialize (IH (pre ++ [a])%list).
    rewrite <- app_assoc in IH. simpl in IH.
    rewrite length_app in IH. simpl in IH.
    now rewrite Nat.add_1_r in IH.
Qed.

Lemma column_name_beyond (columns : list pystr) (i : nat) :
  (length columns <= i)%nat -> column_name columns i = col_name i.
Proof.
  intros H. unfold column_name.
  now rewrite (proj2 (nth_error_None columns i) H).
Qed.

Lemma row_names_exact (names : list pystr) :
  row_names names (length names) = names.
Proof. exact (column_name_in_range [] names). Qed.

Lemma row_names_no_columns (n : nat) : row_names [] n = map col_name (seq 0 n).
Proof.
  unfold row_names. apply map_ext. intros i.
  apply column_name_beyond. simpl. lia.
Qed.

Lemma row_names_excess (columns : list pystr) (n : nat) :
  (length columns <= n)%nat ->
  row_names columns n
  = (columns ++ map col_name (seq (length columns) (n - length columns)))%list.
Proof.
  intros H. unfold row_names.
  replace n with (length columns + (n - length columns))%nat at 1 by lia.
  rewrite seq_app, map_app. f_equal.
  - exact (column_name_in_range [] columns).
  - apply map_ext_in. intros i Hi. apply in_seq in Hi.
    apply column_name_beyond. simpl in Hi. lia.
Qed.

(** Generic column names of the [except] branch name every position as the
    loop itself would. *)
Lemma row_names_generic (m n : nat) :
  row_names (map col_name (seq 0 m)) n = map col_name (seq 0 n).
Proof.
  unfold row_names. apply map_ext. intros i. unfold column_name.
  destruct (nth_error (map col_name (seq 0 m)) i) as [c|] eqn:E; [|reflexivity].
  rewrite nth_error_map, nth_error_seq in E.
  destruct (Nat.ltb i m); simpl in E; [|discriminate].
  now injection E as <-.
Qed.

(* ------------------------------------------------------------------ *)
(** ** The inner loop *)

Lemma fill_row_keys (columns : list pystr) (values : list pyval) :
  forall (i : nat) (d : dict) (k : pystr),
    In k (dict_keys (fill_row columns i values d)) <->
    In k (dict_keys d) \/ In k (map (column_name columns) (seq i (length values))).
Proof.
  induction values as [|v values IH]; intros i d k; simpl.
  - tauto.
  - rewrite IH, dict_set_keys. split.
    + intros [[H | ->] | H]; auto.
    + intros [H | [<- | H]]; auto.
Qed.

Lemma fill_row_NoDup (columns : list pystr) (values : list pyval) :
  forall (i : nat) (d : dict),
    NoDup (dict_keys d) -> NoDup (dict_keys (fill_row columns i values d)).
Proof.
  induction values as [|v values IH]; intros i d Hd; simpl; [assumption|].
  apply IH. now apply dict_set_NoDup.
Qed.

Lemma fill_row_fresh (columns : list pystr) (values : list pyval) :
  forall (i : nat) (d : dict),
    NoDup (dict_keys d ++ map (column_name columns) (seq i (length values))) ->
    fill_row columns i values d
    = (d ++ combine (map (column_name columns) (seq i (length values))) values)%list.
Proof.
  induction values as [|v values IH]; intros i d H; simpl.
  - now rewrite app_nil_r.
  - simpl in H.
    assert (Hk : ~ In (column_name columns i) (dict_keys d)).
    { apply NoDup_remove_2 in H. intros Hin. apply H, in_or_app. now left. }
    rewrite dict_set_fresh by assumption.
    rewrite IH.
    + now rewrite <- app_assoc.
    + unfold dict_keys. rewrite map_app. simpl. rewrite <- app_assoc. exact H.
Qed.

Lemma fill_row_get_other (columns : list pystr) (values : list pyval) :
  forall (i : nat) (d : dict) (k : pystr),
    ~ In k (map (column_name columns) (seq i (length values))) ->
    dict_get (fill_row columns i values d) k = dict_get d k.
Proof.
  induction values as [|v values IH]; intros i d k H; simpl; [reflexivity|].
  simpl in H. rewrite IH by tauto.
  apply dict_get_set_ne. intros E. apply H. now left.
Qed.

(** The value kept under a name is the one of the last position that has
    this name. *)
Lemma fill_row_get_last (columns : list pystr) (values : list pyval) :
  forall (i : nat) (d : dict) (j : nat) (v : pyval),
    nth_error values j = Some v ->
    (forall j', (j < j' < length values)%nat ->
                column_name columns (i + j') <> column_name columns (i + j)) ->
    dict_get (fill_row columns i values d) (column_name columns (i + j)) = Some v.
Proof.
  induction values as [|v0 values IH]; intros i d j v Hj Hlast.
  - destruct j; discriminate.
  - destruct j as [|j]; simpl in Hj |- *.
    + injection Hj as ->. rewrite Nat.add_0_r in *.
      rewrite fill_row_get_other; [apply dict_get_set_eq|].
      intros Hin. apply in_map_iff in Hin. destruct Hin as (p & Hp & Hin).
      apply in_seq in Hin.
      apply (Hlast (p - i)%nat); [simpl; lia|].
      now replace (i + (p - i))%nat with p by lia.
    + replace (i + S j)%nat with (S i + j)%nat by lia.
      apply IH; [assumption|].
      intros j' Hj'. specialize (Hlast (S j')).
      replace (S i + j')%nat with (i + S j')%nat by lia.
      replace (S i + j)%nat with (i + S j)%nat by lia.
      apply Hlast. simpl. lia.
Qed.

Lemma nodup_length_le (l : list pystr) :
  (length (nodup pystr_eq_dec l) <= length l)%nat.
Proof.
  induction l as [|a l IH]; simpl; [lia|].
  destruct (in_dec pystr_eq_dec a l); simpl; lia.
Qed.

Lemma nodup_length_eq (l : list pystr) :
  length (nodup pystr_eq_dec l) = length l <-> NoDup l.
Proof.
  split.
  - induction l as [|a l IH]; simpl; intros H; [constructor|].
    pose proof (nodup_length_le l) as Hle.
    destruct (in_dec pystr_eq_dec a l); simpl in H; [lia|].
    constructor; [assumption | apply IH; lia].
  - intros H. now rewrite nodup_fixed_point.
Qed.

(** The keys of a row's record are the distinct names of its positions. *)
Lemma row_key_count (columns : list pystr) (values : list pyval) :
  length (dict_keys (fill_row columns 0 values []))
  = length (nodup pystr_eq_dec (row_names columns (length values))).
Proof.
  apply Nat.le_antisymm; apply NoDup_incl_length.
  - apply fill_row_NoDup. constructor.
  - intros k Hk. apply nodup_In. apply fill_row_keys in Hk.
    destruct Hk as [[] | Hk]. exact Hk.
  - apply NoDup_nodup.
  - intros k Hk. apply nodup_In in Hk. apply fill_row_keys. now right.
Qed.

Lemma row_distinct_names (columns : list pystr) (values : list pyval) :
  NoDup (row_names columns (length values)) ->
  fill_row columns 0 values [] = combine (row_names columns (length values)) values.
Proof.
  intros H. now rewrite fill_row_fresh.
Qed.

Lemma combine_keys (names : list pystr) (values : list pyval) :
  length names = length values ->
  dict_keys (combine names values) = names /\ dict_values (combine names values) = values.
Proof.
  unfold dict_keys, dict_values. revert values.
  induction names as [|n names IH]; intros [|v values] H; simpl in *;
    try discriminate; auto.
  injection H as H. destruct (IH values H) as [E1 E2]. now rewrite E1, E2.
Qed.

(* ------------------------------------------------------------------ *)
(** ** The outer loop and column resolution *)

Lemma process_rows_readable (columns : list pystr) (rowvals : list (list pyval)) :
  process_rows columns (map Row rowvals)
  = Ret (map (fun values => fill_row columns 0 values []) rowvals).
Proof.
  unfold process_rows. induction rowvals as [|values rowvals IH]; simpl; [reflexivity|].
  now rewrite IH.
Qed.

Lemma process_rows_raises (columns : list pystr) (rows : list row) :
  (exists e, process_rows columns rows = Raise e) <-> In NullRow rows.
Proof.
  unfold process_rows. induction rows as [|r rows IH]; simpl.
  - split; [intros [e H]; discriminate | intros []].
  - destruct r as [values|]; simpl.
    + destruct (comprehension (row_record columns) rows) as [recs|e] eqn:E; simpl.
      * split; [intros [e H]; discriminate|].
        intros [H | H]; [discriminate|]. apply IH in H. destruct H as [e H]. discriminate.
      * split; [intros _; right; apply IH; now exists e | intros _; now exists e].
    + split; [intros _; now left | intros _; now eexists].
Qed.

Lemma schema_names_of (names : list pystr) : schema_names (schema_of names) = Ret names.
Proof.
  unfold schema_names, schema_of. simpl.
  induction names as [|n names IH]; simpl; [reflexivity|].
  simpl in IH. now rewrite IH.
Qed.

Lemma probe_schema_at (r : ResultData) (s : ResultSchema) :
  schema_at r s -> probe_columns r = schema_names s.
Proof.
  intros [H | m Habs Hm Hs]; unfold probe_columns.
  - now rewrite H.
  - destruct (schema r); try contradiction; simpl; rewrite Hm; simpl; now rewrite Hs.
Qed.

Lemma probe_no_schema (r : ResultData) :
  no_schema r -> probe_columns r = Ret [] \/ exists e, probe_columns r = Raise e.
Proof.
  intros [Hs Hm]. unfold probe_columns.
  destruct (schema r); try contradiction; simpl;
    (destruct (manifest r) as [| |  |m]; try contradiction; simpl; auto;
     destruct (manifest_schema m); try contradiction; simpl; eauto).
Qed.

Lemma normalize_resolved (r : ResultData) (names : list pystr) (rows : list row) :
  data_array r = Some rows -> rows <> [] -> probe_columns r = Ret names ->
  normalize r = process_rows names rows.
Proof.
  intros Hd Hne Hp. unfold normalize, resolve_columns. rewrite Hd, Hp.
  destruct rows; [contradiction | reflexivity].
Qed.

Lemma generic_fill (m : nat) (values : list pyval) :
  fill_row (map col_name (seq 0 m)) 0 values [] = generic_record values.
Proof.
  rewrite row_distinct_names; rewrite row_names_generic.
  - reflexivity.
  - apply col_names_NoDup.
Qed.

(** With no resolved name, or after a failed resolution, a readable result
    is normalized under the synthetic names. *)
Lemma normalize_generic (r : ResultData) (rowvals : list (list pyval)) :
  probe_columns r = Ret [] \/ (exists e, probe_columns r = Raise e) ->
  data_array r = Some (map Row rowvals) ->
  normalize r = Ret (map generic_record rowvals).
Proof.
  intros Hp Hd. unfold normalize, resolve_columns. rewrite Hd.
  destruct rowvals as [|first rest]; [reflexivity|].
  assert (Hpr : forall m, process_rows (map col_name (seq 0 m)) (Row first :: map Row rest)
                          = Ret (map generic_record (first :: rest))).
  { intros m. rewrite (process_rows_readable _ (first :: rest)). f_equal.
    apply map_ext. intros values. apply generic_fill. }
  simpl map at 1.
  destruct Hp as [Hp | [e Hp]]; rewrite Hp; simpl try_except.
  - exact (Hpr 0%nat).
  - exact (Hpr (length first)).
Qed.

(** Normalization raises exactly when a row cannot be read. *)
Lemma normalize_raises (r : ResultData) :
  (exists e, normalize r = Raise e) <->
  (exists rows, data_array r = Some rows /\ In NullRow rows).
Proof.
  unfold normalize, resolve_columns.
  destruct (data_array r) as [[|first rest]|].
  - split; [intros [e H]; discriminate | intros (rows & H & Hin)].
    injection H as <-. destruct Hin.
  - set (rows := first :: rest).
    destruct (probe_columns r) as [cols|e0]; simpl try_except.
    + simpl bind at 1. rewrite process_rows_raises.
      split; [intros H; now exists rows | intros (rows' & H & Hin); now injection H as <-].
    + unfold generic_columns, rows. destruct first as [values|]; simpl row_len.
      * simpl bind. fold rows. rewrite process_rows_raises.
        split; [intros H; now exists rows | intros (rows' & H & Hin); now injection H as <-].
      * simpl. split; [intros _; eexists; split; [reflexivity | now left] | intros _; now eexists].
  - split; [intros [e H]; discriminate | intros (rows & H & _); discriminate].
Qed.

Lemma process_rows_NoDup (columns : list pystr) (rows : list row) :
  forall recs, process_rows columns rows = Ret recs ->
               forall rec, In rec recs -> NoDup (dict_keys rec).
Proof.
  unfold process_rows. induction rows as [|r rows IH]; simpl; intros recs H rec Hin.
  - injection H as <-. destruct Hin.
  - destruct r as [values|]; simpl in H; [|discriminate].
    destruct (comprehension (row_record columns) rows) as [recs'|e]; simpl in H;
      [|discriminate].
    injection H as <-. destruct Hin as [<- | Hin].
    + apply fill_row_NoDup. constructor.
    + now apply (IH recs').
Qed.

Lemma normalize_NoDup (r : ResultData) (recs : list dict) (rec : dict) :
  normalize r = Ret recs -> In rec recs -> NoDup (dict_keys rec).
Proof.
  unfold normalize. intros H Hin.
  destruct (data_array r) as [[|first rest]|];
    try (injection H as <-; destruct Hin).
  destruct (resolve_columns r (first :: rest)) as [cols|e]; simpl in H; [|discriminate].
  now apply (process_rows_NoDup cols (first :: rest) recs).
Qed.

Lemma combine_keys_values (d : dict) : combine (dict_keys d) (dict_values d) = d.
Proof.
  unfold dict_keys, dict_values.
  induction d as [|[k v] d IH]; simpl; [reflexivity | now rewrite IH].
Qed.

(** Closes a goal [NoDup l] or [a <> b] on literal names. *)
Ltac distinct_literals :=
  repeat (constructor; [vm_compute; intuition discriminate|]); try constructor.

(* ------------------------------------------------------------------ *)
(** ** Keys under a schema *)

(** C1, as the code has it: with a schema (at either location) of pairwise
    distinct column names, as many as each row has values, every row of a
    non-empty result becomes the record pairing the names, in order, with the
    row's values, one record per row.  The distinctness is needed: the record
    is a dictionary, and a repeated name is one key. *)
Theorem normalize_with_schema (r : ResultData) (s : ResultSchema)
    (names : list pystr) (rowvals : list (list pyval)) :
  rowvals <> [] ->
  data_array r = Some (map Row rowvals) ->
  schema_at r s -> schema_names s = Ret names ->
  NoDup names ->
  Forall (fun values => length values = length names) rowvals ->
  normalize r = Ret (map (combine names) rowvals) /\
  Forall (fun values => dict_keys (combine names values) = names /\
                        dict_values (combine names values) = values) rowvals.
Proof.
  intros Hne Hd Hat Hs Hnd Hlen. split.
  - rewrite (normalize_resolved r names (map Row rowvals)); trivial.
    + rewrite process_rows_readable. f_equal.
      apply map_ext_in. intros values Hin.
      rewrite Forall_forall in Hlen. specialize (Hlen values Hin).
      rewrite row_distinct_names; rewrite Hlen, row_names_exact; trivial.
    + destruct rowvals; [contradiction | discriminate].
    + now rewrite (probe_schema_at r s).
  - eapply Forall_impl; [|exact Hlen].
    intros values H. apply combine_keys. now symmetry.
Qed.

(** The example of the specification, by the theorem. *)
Lemma normalize_with_schema_witness :
  normalize {| schema := Has (schema_of [lit "id"; lit "name"]);
               manifest := Missing;
               data_array := Some [Row [PyInt 1; PyStr (lit "a")];
                                   Row [PyInt 2; PyStr (lit "b")]] |}
  = Ret [[(lit "id", PyInt 1); (lit "name", PyStr (lit "a"))];
         [(lit "id", PyInt 2); (lit "name", PyStr (lit "b"))]].
Proof.
  refine (proj1 (normalize_with_schema
                   {| schema := Has (schema_of [lit "id"; lit "name"]);
                      manifest := Missing;
                      data_array := Some [Row [PyInt 1; PyStr (lit "a")];
                                          Row [PyInt 2; PyStr (lit "b")]] |}
                   (schema_of [lit "id"; lit "name"])
                   [lit "id"; lit "name"]
                   [[PyInt 1; PyStr (lit "a")]; [PyInt 2; PyStr (lit "b")]]
                   _ _ _ _ _ _)).
  - discriminate.
  - reflexivity.
  - apply Direct. reflexivity.
  - reflexivity.
  - distinct_literals.
  - repeat constructor.
Defined.

(** C1 as stated fails on a schema that repeats a name: two columns, one
    key. *)
Lemma normalize_duplicate_names_counterexample :
  exists rec,
    normalize {| schema := Has (schema_of [lit "id"; lit "id"]);
                 manifest := Missing;
                 data_array := Some [Row [PyInt 1; PyInt 2]] |} = Ret [rec] /\
    rec = [(lit "id", PyInt 2)] /\
    dict_keys rec <> [lit "id"; lit "id"].
Proof.
  eexists. split; [vm_compute; reflexivity|].
  split; [reflexivity | vm_compute; discriminate].
Qed.

(* ------------------------------------------------------------------ *)
(** ** Record and key counts *)

(** C2, as the code has it: for every column-name list and every list of
    rows there is one record per row; the keys of a record are the distinct
    names given to the row's positions, so their number is at most the
    row's arity and equals it exactly when these names are pairwise
    distinct. *)
Theorem record_and_key_counts (columns : list pystr) (rowvals : list (list pyval)) :
  exists recs,
    process_rows columns (map Row rowvals) = Ret recs /\
    length recs = length rowvals /\
    Forall2 (fun values rec =>
               NoDup (dict_keys rec) /\
               length (dict_keys rec)
               = length (nodup pystr_eq_dec (row_names columns (length values))) /\
               (length (dict_keys rec) <= length values)%nat /\
               (length (dict_keys rec) = length values <->
                NoDup (row_names columns (length values))))
            rowvals recs.
Proof.
  exists (map (fun values => fill_row columns 0 values []) rowvals).
  split; [apply process_rows_readable|].
  split; [apply length_map|].
  induction rowvals as [|values rowvals IH]; simpl; constructor; [|exact IH].
  assert (Hn : length (row_names columns (length values)) = length values).
  { unfold row_names. now rewrite length_map, length_seq. }
  split; [apply fill_row_NoDup; constructor|].
  rewrite row_key_count. split; [reflexivity|].
  pose proof (nodup_length_le (row_names columns (length values))) as Hle.
  pose proof (nodup_length_eq (row_names columns (length values))) as Heq.
  rewrite Hn in Hle, Heq. split; assumption.
Qed.

(** C2 as stated fails on a repeated name and on a name that collides with
    a synthetic one: two values, one key. *)
Lemma key_count_collision_counterexample :
  (exists rec,
     process_rows [lit "id"; lit "id"] [Row [PyInt 1; PyInt 2]] = Ret [rec] /\
     length (dict_keys rec) <> 2%nat) /\
  (exists rec,
     process_rows [lit "col_1"] [Row [PyInt 7; PyInt 8]] = Ret [rec] /\
     rec = [(lit "col_1", PyInt 8)] /\
     length (dict_keys rec) <> 2%nat).
Proof.
  split; eexists; (split; [vm_compute; reflexivity|]).
  - vm_compute. discriminate.
  - split; [reflexivity | vm_compute; discriminate].
Qed.

(* ------------------------------------------------------------------ *)
(** ** Rows longer than the column list *)

(** C4, as the code has it: in a row longer than the column list the
    positions from [len(columns)] on are named [col_i], and the record holds
    the value of each of them under that name.  The record has as many keys as
    the row has values when the column names are pairwise distinct and none
    of them is the synthetic name of an excess position. *)
Theorem excess_positions_named (columns : list pystr) (values : list pyval) :
  (length columns < length values)%nat ->
  exists rec,
    row_record columns (Row values) = Ret rec /\
    row_names columns (length values)
    = (columns ++ map col_name (seq (length columns) (length values - length columns)))%list /\
    (forall i v, (length columns <= i)%nat -> nth_error values i = Some v ->
                 dict_get rec (col_name i) = Some v) /\
    (NoDup columns ->
     (forall i, (length columns <= i < length values)%nat -> ~ In (col_name i) columns) ->
     length (dict_keys rec) = length values).
Proof.
  intros Hlt. eexists. split; [reflexivity|].
  assert (Hnames := row_names_excess columns (length values) (Nat.lt_le_incl _ _ Hlt)).
  split; [exact Hnames|]. split.
  - intros i v Hi Hv.
    rewrite <- (column_name_beyond columns i Hi).
    apply (fill_row_get_last columns values 0 [] i v Hv).
    intros j' Hj'. simpl.
    rewrite !column_name_beyond by lia.
    intros E. apply col_name_inj in E. lia.
  - intros Hnd Hfresh.
    rewrite row_key_count, nodup_fixed_point.
    + unfold row_names. now rewrite length_map, length_seq.
    + rewrite Hnames. apply NoDup_app; [assumption | apply col_names_NoDup |].
      intros k Hk Hin. apply in_map_iff in Hin. destruct Hin as (i & <- & Hi).
      apply in_seq in Hi. apply (Hfresh i); [lia | assumption].
Qed.

Lemma excess_positions_named_witness :
  exists rec,
    row_record [lit "id"] (Row [PyInt 1; PyInt 2; PyInt 3]) = Ret rec /\
    dict_get rec (col_name 2) = Some (PyInt 3) /\
    length (dict_keys rec) = 3%nat.
Proof.
  destruct (excess_positions_named [lit "id"] [PyInt 1; PyInt 2; PyInt 3])
    as (rec & Hrec & _ & Hget & Hcount).
  - simpl. lia.
  - exists rec. split; [exact Hrec|]. split.
    + apply Hget; [simpl; lia | reflexivity].
    + apply Hcount; [distinct_literals|].
      intros i Hi [H | []]. simpl in Hi.
      assert (Hi' : i = 1%nat \/ i = 2%nat) by lia.
      destruct Hi' as [-> | ->]; vm_compute in H; discriminate.
Defined.

(** C4 as stated fails when a name is repeated, or is the synthetic name of
    an excess position: three values, two keys. *)
Lemma excess_key_count_counterexample :
  (exists rec,
     row_record [lit "id"; lit "id"] (Row [PyInt 1; PyInt 2; PyInt 3]) = Ret rec /\
     rec = [(lit "id", PyInt 2); (lit "col_2", PyInt 3)] /\
     length (dict_keys rec) <> 3%nat) /\
  (exists rec,
     row_record [lit "col_2"; lit "x"] (Row [PyInt 1; PyInt 2; PyInt 3]) = Ret rec /\
     rec = [(lit "col_2", PyInt 3); (lit "x", PyInt 2)] /\
     length (dict_keys rec) <> 3%nat).
Proof.
  split; eexists; (split; [reflexivity|]);
    (split; [vm_compute; reflexivity | vm_compute; discriminate]).
Qed.

(* ------------------------------------------------------------------ *)
(** ** No schema *)

(** C5: with no schema at either location, every record of a non-empty
    result whose rows all have [n] values has exactly the keys
    [col_0 .. col_(n-1)], in this order, each with the value of its
    position. *)
Theorem generic_names_without_schema (r : ResultData) (rowvals : list (list pyval))
    (n : nat) :
  no_schema r ->
  rowvals <> [] ->
  data_array r = Some (map Row rowvals) ->
  Forall (fun values => length values = n) rowvals ->
  normalize r = Ret (map generic_record rowvals) /\
  Forall (fun values => dict_keys (generic_record values) = map col_name (seq 0 n) /\
                        dict_values (generic_record values) = values) rowvals.
Proof.
  intros Hno _ Hd Hlen. split.
  - apply normalize_generic; [now apply probe_no_schema | assumption].
  - eapply Forall_impl; [|exact Hlen].
    intros values <-. apply combine_keys.
    now rewrite length_map, length_seq.
Qed.

Lemma generic_names_without_schema_witness :
  normalize {| schema := IsNone; manifest := Missing;
               data_array := Some [Row [PyInt 1; PyStr (lit "a")];
                                   Row [PyInt 2; PyStr (lit "b")]] |}
  = Ret [[(lit "col_0", PyInt 1); (lit "col_1", PyStr (lit "a"))];
         [(lit "col_0", PyInt 2); (lit "col_1", PyStr (lit "b"))]].
Proof.
  refine (proj1 (generic_names_without_schema
                   {| schema := IsNone; manifest := Missing;
                      data_array := Some [Row [PyInt 1; PyStr (lit "a")];
                                          Row [PyInt 2; PyStr (lit "b")]] |}
                   [[PyInt 1; PyStr (lit "a")]; [PyInt 2; PyStr (lit "b")]] 2
                   _ _ _ _)).
  - split; exact I.
  - discriminate.
  - reflexivity.
  - repeat constructor.
Defined.

(* ------------------------------------------------------------------ *)
(** ** Failures of schema resolution *)

(** [execute_sql_query] on a statement that succeeded: the records of
    normalization in a success dictionary, or the error dictionary when
    normalization raises. *)
Lemma execute_sql_query_succeeded (self : DatabricksClient) (sql_query : pystr)
    (warehouse_id : pyval) (statement : StatementResponse) (st : StatementStatus) :
  truthy warehouse_id = true ->
  execute_statement (workspace_client self) warehouse_id sql_query = Ret statement ->
  status statement = Some st -> state st = SUCCEEDED ->
  execute_sql_query self sql_query warehouse_id
  = Ret match match result statement with
              | Some r => normalize r
              | None => Ret []
              end with
        | Ret result_data =>
            PyDict [(lit "success", PyBool true);
                    (lit "data", PyList (map PyDict result_data));
                    (lit "statement_id", statement_id statement);
                    (lit "warehouse_id", warehouse_id)]
        | Raise e => failure e
        end.
Proof.
  intros Hw Hex Hst Hs. unfold execute_sql_query, choose_warehouse.
  rewrite Hw. simpl. rewrite Hex. simpl. rewrite Hst. simpl. rewrite Hs. simpl.
  destruct (match result statement with Some r => normalize r | None => Ret [] end);
    reflexivity.
Qed.

(** C3: when the schema is missing (no schema at either location) or its
    access raises, a result whose rows are readable is normalized, under the
    names [col_0 .. col_(n-1)] of each row; normalization raises only when a
    row of the result cannot be read, and then it does, and the caller of
    [execute_sql_query] gets the error dictionary. *)
Theorem schema_failure_absorbed (r : ResultData) :
  no_schema r \/ (exists e, probe_columns r = Raise e) ->
  (forall rowvals, data_array r = Some (map Row rowvals) ->
                   normalize r = Ret (map generic_record rowvals)) /\
  ((exists e, normalize r = Raise e) <->
   (exists rows, data_array r = Some rows /\ In NullRow rows)) /\
  (forall self sql_query warehouse_id statement st,
     truthy warehouse_id = true ->
     execute_statement (workspace_client self) warehouse_id sql_query = Ret statement ->
     status statement = Some st -> state st = SUCCEEDED ->
     result statement = Some r ->
     (forall rowvals,
        data_array r = Some (map Row rowvals) ->
        execute_sql_query self sql_query warehouse_id
        = Ret (PyDict [(lit "success", PyBool true);
                       (lit "data", PyList (map PyDict (map generic_record rowvals)));
                       (lit "statement_id", statement_id statement);
                       (lit "warehouse_id", warehouse_id)])) /\
     (forall rows,
        data_array r = Some rows -> In NullRow rows ->
        exists e, execute_sql_query self sql_query warehouse_id = Ret (failure e))).
Proof.
  intros H.
  assert (Hgen : forall rowvals, data_array r = Some (map Row rowvals) ->
                                 normalize r = Ret (map generic_record rowvals)).
  { intros rowvals Hd. apply normalize_generic; [|assumption].
    destruct H as [H | H]; [now apply probe_no_schema | now right]. }
  split; [exact Hgen|]. split; [apply normalize_raises|].
  intros self sql_query warehouse_id statement st Hw Hex Hst Hs Hr.
  rewrite (execute_sql_query_succeeded self sql_query warehouse_id statement st)
    by assumption.
  rewrite Hr. split.
  - intros rowvals Hd. now rewrite (Hgen rowvals Hd).
  - intros rows Hd Hin.
    destruct (proj2 (normalize_raises r)) as [e He]; [now exists rows|].
    exists e. now rewrite He.
Qed.

Lemma schema_failure_absorbed_witness :
  normalize {| schema := Has {| columns := Raise (lit "TypeError") |};
               manifest := Faulty (lit "boom");
               data_array := Some [Row [PyInt 1; PyInt 2]] |}
  = Ret [[(lit "col_0", PyInt 1); (lit "col_1", PyInt 2)]].
Proof.
  refine (proj1 (schema_failure_absorbed
                   {| schema := Has {| columns := Raise (lit "TypeError") |};
                      manifest := Faulty (lit "boom");
                      data_array := Some [Row [PyInt 1; PyInt 2]] |} _)
                [[PyInt 1; PyInt 2]] eq_refl).
  right. eexists. reflexivity.
Defined.

(* ------------------------------------------------------------------ *)
(** ** Idempotence *)

(** C7: a record that normalization produced, read back as a one-row result
    with its keys as the schema and its values as the row, normalizes to
    itself. *)
Theorem normalize_idempotent (r : ResultData) (recs : list dict) (rec : dict) :
  normalize r = Ret recs -> In rec recs ->
  normalize (as_result rec) = Ret [rec].
Proof.
  intros Hr Hin.
  pose proof (normalize_NoDup r recs rec Hr Hin) as Hnd.
  rewrite (normalize_resolved (as_result rec) (dict_keys rec) [Row (dict_values rec)]).
  - change [Row (dict_values rec)] with (map Row [dict_values rec]).
    rewrite process_rows_readable. simpl map.
    assert (Hlen : length (dict_values rec) = length (dict_keys rec)).
    { unfold dict_values, dict_keys. now rewrite !length_map. }
    rewrite row_distinct_names; rewrite Hlen, row_names_exact; trivial.
    now rewrite combine_keys_values.
  - reflexivity.
  - discriminate.
  - unfold probe_columns, as_result. simpl. apply schema_names_of.
Qed.

Lemma normalize_idempotent_witness :
  normalize (as_result [(lit "id", PyInt 2); (lit "col_2", PyInt 3)])
  = Ret [[(lit "id", PyInt 2); (lit "col_2", PyInt 3)]].
Proof.
  apply (normalize_idempotent
           {| schema := Has (schema_of [lit "id"; lit "id"]);
              manifest := Missing;
              data_array := Some [Row [PyInt 1; PyInt 2; PyInt 3]] |}
           [[(lit "id", PyInt 2); (lit "col_2", PyInt 3)]]).
  - vm_compute. reflexivity.
  - left. reflexivity.
Defined.

(* ------------------------------------------------------------------ *)
(** ** Priority of the schema locations *)

(** C8: a direct schema object is the one read, whatever the manifest holds;
    the schema of the manifest is read when the direct one is absent or
    falsy.  The names are those of the schema's columns, in order
    ([schema_names_of]). *)
Theorem resolution_priority (r : ResultData) :
  (forall s, schema r = Has s ->
             probe_columns r = schema_names s /\
             forall m, probe_columns {| schema := schema r; manifest := m;
                                        data_array := data_array r |}
                       = schema_names s) /\
  (forall m s, absent (schema r) -> manifest r = Has m -> manifest_schema m = Has s ->
               probe_columns r = schema_names s) /\
  (forall names rows, probe_columns r = Ret names -> resolve_columns r rows = Ret names).
Proof.
  split; [|split].
  - intros s Hs. split.
    + apply probe_schema_at. now apply Direct.
    + intros m. apply probe_schema_at. now apply Direct.
  - intros m s Ha Hm Hs. apply probe_schema_at. now apply (Nested r s m).
  - intros names rows H. unfold resolve_columns. now rewrite H.
Qed.

Lemma resolution_priority_witness :
  resolve_columns
    {| schema := Has (schema_of [lit "id"; lit "name"]);
       manifest := Has {| manifest_schema := Has (schema_of [lit "a"; lit "b"]) |};
       data_array := Some [Row [PyInt 1; PyInt 2]] |}
    [Row [PyInt 1; PyInt 2]]
  = Ret [lit "id"; lit "name"] /\
  resolve_columns
    {| schema := IsNone;
       manifest := Has {| manifest_schema := Has (schema_of [lit "a"; lit "b"]) |};
       data_array := Some [Row [PyInt 1; PyInt 2]] |}
    [Row [PyInt 1; PyInt 2]]
  = Ret [lit "a"; lit "b"].
Proof.
  split.
  - apply (proj2 (proj2 (resolution_priority
             {| schema := Has (schema_of [lit "id"; lit "name"]);
                manifest := Has {| manifest_schema := Has (schema_of [lit "a"; lit "b"]) |};
                data_array := Some [Row [PyInt 1; PyInt 2]] |}))).
    rewrite (proj1 (proj1 (resolution_priority
             {| schema := Has (schema_of [lit "id"; lit "name"]);
                manifest := Has {| manifest_schema := Has (schema_of [lit "a"; lit "b"]) |};
                data_array := Some [Row [PyInt 1; PyInt 2]] |})
             (schema_of [lit "id"; lit "name"]) eq_refl)).
    apply schema_names_of.
  - apply (proj2 (proj2 (resolution_priority
             {| schema := IsNone;
                manifest := Has {| manifest_schema := Has (schema_of [lit "a"; lit "b"]) |};
                data_array := Some [Row [PyInt 1; PyInt 2]] |}))).
    rewrite (proj1 (proj2 (resolution_priority
             {| schema := IsNone;
                manifest := Has {| manifest_schema := Has (schema_of [lit "a"; lit "b"]) |};
                data_array := Some [Row [PyInt 1; PyInt 2]] |}))
             {| manifest_schema := Has (schema_of [lit "a"; lit "b"]) |}
             (schema_of [lit "a"; lit "b"]) I eq_refl eq_refl).
    apply schema_names_of.
Defined.

(* ------------------------------------------------------------------ *)
(** ** No rows *)

(** C9: a result with an empty [data_array] normalizes to the empty list
    whatever its schema and manifest are, and [execute_sql_query] returns it
    in a dictionary whose [success] is [True]. *)
Theorem empty_rows_success (self : DatabricksClient) (sql_query : pystr)
    (warehouse_id : pyval) (statement : StatementResponse) (st : StatementStatus)
    (r : ResultData) :
  truthy warehouse_id = true ->
  execute_statement (workspace_client self) warehouse_id sql_query = Ret statement ->
  status statement = Some st -> state st = SUCCEEDED ->
  result statement = Some r -> data_array r = Some [] ->
  normalize r = Ret [] /\
  execute_sql_query self sql_query warehouse_id
  = Ret (PyDict [(lit "success", PyBool true);
                 (lit "data", PyList []);
                 (lit "statement_id", statement_id statement);
                 (lit "warehouse_id", warehouse_id)]).
Proof.
  intros Hw Hex Hst Hs Hr Hd.
  assert (Hn : normalize r = Ret []) by (unfold normalize; now rewrite Hd).
  split; [exact Hn|].
  unfold execute_sql_query, choose_warehouse.
  rewrite Hw. simpl. rewrite Hex. simpl. rewrite Hst. simpl. rewrite Hs. simpl.
  rewrite Hr, Hn. reflexivity.
Qed.

Lemma empty_rows_success_witness :
  execute_sql_query
    (client_of (with_statement
                  {| status := Some {| state := SUCCEEDED; error := None |};
                     result := Some {| schema := Faulty (lit "boom");
                                       manifest := IsNone;
                                       data_array := Some [] |};
                     statement_id := PyStr (lit "01ef") |}
                  (failing_sdk (lit "offline"))))
    (lit "SELECT 1 WHERE 1 = 0") (PyStr (lit "wh1"))
  = Ret (PyDict [(lit "success", PyBool true);
                 (lit "data", PyList []);
                 (lit "statement_id", PyStr (lit "01ef"));
                 (lit "warehouse_id", PyStr (lit "wh1"))]).
Proof.
  refine (proj2 (empty_rows_success
                   (client_of (with_statement
                      {| status := Some {| state := SUCCEEDED; error := None |};
                         result := Some {| schema := Faulty (lit "boom");
                                           manifest := IsNone;
                                           data_array := Some [] |};
                         statement_id := PyStr (lit "01ef") |}
                      (failing_sdk (lit "offline"))))
                   (lit "SELECT 1 WHERE 1 = 0") (PyStr (lit "wh1"))
                   _ {| state := SUCCEEDED; error := None |} _
                   eq_refl eq_refl eq_refl eq_refl eq_refl eq_refl)).
Defined.

(* ------------------------------------------------------------------ *)
(** ** Codecs *)

Lemma comprehension_raises {A B : Type} (f : A -> exc B) (xs : list A) :
  (exists e, comprehension f xs = Raise e) <-> Exists (fun x => exists e, f x = Raise e) xs.
Proof.
  induction xs as [|x xs IH]; simpl.
  - split; [intros [e H]; discriminate | intros H; inversion H].
  - rewrite Exists_cons, <- IH.
    destruct (f x) as [y|e]; simpl.
    + destruct (comprehension f xs) as [ys|e']; simpl.
      * split; [intros [e H]; discriminate|].
        intros [[e H] | [e H]]; discriminate.
      * split; [intros _; right; now exists e' | intros _; now exists e'].
    + split; [intros _; left; now exists e | intros _; now exists e].
Qed.

Lemma utf8_of_code_point_raises (c : Z) :
  (exists e, utf8_of_code_point c = Raise e) <-> surrogate c.
Proof.
  unfold utf8_of_code_point, surrogate.
  destruct (Z.ltb_spec c 0x80) as [H1|H1];
    [split; [intros [e He]; discriminate | lia]|].
  destruct (Z.ltb_spec c 0x800) as [H2|H2];
    [split; [intros [e He]; discriminate | lia]|].
  destruct (Z.leb_spec 0xD800 c) as [H3|H3];
    destruct (Z.leb_spec c 0xDFFF) as [H4|H4]; simpl;
    try (destruct (Z.ltb_spec c 0x10000) as [H5|H5]);
    split; intros H;
    first [ destruct H as [e He]; discriminate He | lia | now eexists ].
Qed.

Lemma encode_utf8_raises (s : pystr) :
  (exists e, encode_utf8 s = Raise e) <-> Exists surrogate s.
Proof.
  unfold encode_utf8.
  assert (Hc : (exists e, comprehension utf8_of_code_point s = Raise e)
               <-> Exists surrogate s).
  { rewrite comprehension_raises.
    split; apply Exists_impl; intros c; apply utf8_of_code_point_raises. }
  rewrite <- Hc. clear Hc.
  destruct (comprehension utf8_of_code_point s) as [chunks|e]; simpl.
  - split; intros [e H]; discriminate.
  - split; intros _; now exists e.
Qed.



(* ------------------------------------------------------------------ *)
(** ** The methods and the exceptions of the SDK *)

Section ClientFacts.

Variable b64encode : pybytes -> pystr.
Variable a2b_base64 : pybytes -> exc pybytes.
Variable self : DatabricksClient.






End ClientFacts.





(* ------------------------------------------------------------------ *)
(** ** Further properties of the normalization *)

Lemma dict_set_keys_step (d : dict) (k : pystr) (v : pyval) :
  dict_keys (dict_set d k v)
  = if in_dec pystr_eq_dec k (dict_keys d) then dict_keys d
    else (dict_keys d ++ [k])%list.
Proof.
  destruct (in_dec pystr_eq_dec k (dict_keys d)) as [Hin|Hnin].
  - now apply dict_set_keys_in.
  - rewrite dict_set_fresh by assumption. unfold dict_keys. now rewrite map_app.
Qed.

Lemma fill_row_key_order (columns : list pystr) (values : list pyval) :
  forall (i : nat) (d : dict),
    dict_keys (fill_row columns i values d)
    = fold_left (fun seen n => if in_dec pystr_eq_dec n seen then seen
                               else (seen ++ [n])%list)
                (map (column_name columns) (seq i (length values))) (dict_keys d).
Proof.
  induction values as [|v values IH]; intros i d; simpl; [reflexivity|].
  now rewrite IH, dict_set_keys_step.
Qed.

(** X1: the keys of a row's record are the distinct names given to its
    positions, in the order in which each name first occurs. *)
Theorem record_keys_first_occurrences (columns : list pystr) (values : list pyval) :
  exists rec,
    row_record columns (Row values) = Ret rec /\
    dict_keys rec = first_occurrences (row_names columns (length values)).
Proof.
  eexists. split; [reflexivity|]. apply fill_row_key_order.
Qed.

(** X2: a name given to a position of the row is a key of its record, and a
    key is such a name; under a name the record holds the value of the last
    position that has it, so an earlier value under a repeated name is
    lost. *)
Theorem last_value_wins (columns : list pystr) (values : list pyval) :
  exists rec,
    row_record columns (Row values) = Ret rec /\
    (forall k, In k (dict_keys rec) <-> In k (row_names columns (length values))) /\
    (forall j v,
       nth_error values j = Some v ->
       (forall j', (j < j' < length values)%nat ->
                   column_name columns j' <> column_name columns j) ->
       dict_get rec (column_name columns j) = Some v).
Proof.
  eexists. split; [reflexivity|]. split.
  - intros k. rewrite fill_row_keys. simpl. unfold row_names. tauto.
  - intros j v Hj Hlast.
    exact (fill_row_get_last columns values 0 [] j v Hj Hlast).
Qed.

Lemma last_value_wins_witness :
  exists rec,
    row_record [lit "id"; lit "id"] (Row [PyInt 1; PyInt 2]) = Ret rec /\
    dict_get rec (lit "id") = Some (PyInt 2).
Proof.
  destruct (last_value_wins [lit "id"; lit "id"] [PyInt 1; PyInt 2])
    as (rec & Hrec & _ & Hlast).
  exists rec. split; [exact Hrec|].
  apply (Hlast 1%nat (PyInt 2)); [reflexivity|].
  intros j' Hj'. simpl in Hj'. lia.
Defined.

Lemma row_names_prefix (pre suf : list pystr) :
  row_names (pre ++ suf) (length pre) = pre.
Proof.
  rewrite <- (row_names_exact pre) at 3. unfold row_names.
  apply map_ext_in. intros i Hi. apply in_seq in Hi. simpl in Hi.
  unfold column_name. now rewrite nth_error_app1 by lia.
Qed.

Lemma row_names_short (columns : list pystr) (n : nat) :
  (n <= length columns)%nat -> row_names columns n = firstn n columns.
Proof.
  intros H. pose proof (row_names_prefix (firstn n columns) (skipn n columns)) as E.
  rewrite firstn_skipn, length_firstn, Nat.min_l in E by assumption. exact E.
Qed.

Lemma combine_firstn_values (columns : list pystr) (values : list pyval) :
  combine (firstn (length values) columns) values = combine columns values.
Proof.
  revert columns. induction values as [|v values IH]; intros [|c columns]; simpl;
    try reflexivity.
  now rewrite IH.
Qed.

Lemma NoDup_app_apart (l1 l2 : list pystr) (x : pystr) :
  NoDup (l1 ++ l2) -> In x l1 -> In x l2 -> False.
Proof.
  induction l1 as [|a l1 IH]; simpl; intros H H1 H2; [contradiction|].
  inversion H as [|? ? Hnin Hrest]; subst.
  destruct H1 as [-> | H1].
  - apply Hnin, in_or_app. now right.
  - now apply IH.
Qed.

(** X3: a row with fewer values than the schema has columns takes the
    leading column names only: when these are pairwise distinct its record
    pairs them with the values, and no later column of a schema of distinct
    names is a key (it is absent, not [None]). *)
Theorem short_row_leading_columns (columns : list pystr) (values : list pyval) :
  (length values <= length columns)%nat ->
  NoDup (firstn (length values) columns) ->
  exists rec,
    row_record columns (Row values) = Ret rec /\
    rec = combine columns values /\
    dict_keys rec = firstn (length values) columns /\
    (NoDup columns ->
     forall i c, (length values <= i)%nat -> nth_error columns i = Some c ->
                 dict_get rec c = None).
Proof.
  intros Hle Hnd. eexists. split; [reflexivity|].
  assert (Hrec : fill_row columns 0 values [] = combine columns values).
  { rewrite row_distinct_names; rewrite row_names_short by assumption; trivial.
    apply combine_firstn_values. }
  assert (Hkeys : dict_keys (fill_row columns 0 values []) = firstn (length values) columns).
  { rewrite row_distinct_names; rewrite row_names_short by assumption; trivial.
    apply combine_keys. rewrite length_firstn. lia. }
  split; [exact Hrec|]. split; [exact Hkeys|].
  intros Hall i c Hi Hc.
  rewrite (fill_row_get_other columns values 0 [] c); [reflexivity|].
  fold (row_names columns (length values)). rewrite row_names_short by assumption.
  intros Hin.
  rewrite <- (firstn_skipn (length values) columns) in Hall, Hc.
  rewrite nth_error_app2 in Hc by (rewrite length_firstn; lia).
  apply nth_error_In in Hc.
  exact (NoDup_app_apart _ _ c Hall Hin Hc).
Qed.

Lemma short_row_leading_columns_witness :
  exists rec,
    row_record [lit "id"; lit "name"; lit "age"] (Row [PyInt 1; PyStr (lit "a")]) = Ret rec /\
    rec = [(lit "id", PyInt 1); (lit "name", PyStr (lit "a"))] /\
    dict_get rec (lit "age") = None.
Proof.
  destruct (short_row_leading_columns [lit "id"; lit "name"; lit "age"]
              [PyInt 1; PyStr (lit "a")])
    as (rec & Hrec & Heq & _ & Habsent).
  - simpl. lia.
  - simpl. distinct_literals.
  - exists rec. split; [exact Hrec|]. split; [exact Heq|].
    apply (Habsent ltac:(distinct_literals) 2%nat); [simpl; lia | reflexivity].
Defined.

(** With readable rows the records are built row by row from the columns
    of the inner [try], or from none when it raises. *)
Lemma normalize_readable (r : ResultData) (rowvals : list (list pyval)) :
  data_array r = Some (map Row rowvals) ->
  normalize r
  = Ret (map (fun values => fill_row (effective_columns r) 0 values []) rowvals).
Proof.
  intros Hd. unfold effective_columns.
  destruct (probe_columns r) as [cols|e] eqn:Hp.
  - destruct rowvals as [|first rest].
    + unfold normalize. now rewrite Hd.
    + rewrite (normalize_resolved r cols (map Row (first :: rest))); trivial.
      * apply process_rows_readable.
      * discriminate.
  - rewrite (normalize_generic r rowvals); [|right; now exists e|assumption].
    f_equal. apply map_ext. intros values. symmetry. exact (generic_fill 0 values).
Qed.

(** X4: on a result whose rows are readable, normalization is row by row:
    the records come in the order of the rows, and each is built from its own
    row and the columns of the inner [try] alone.  When that [try] raises,
    the records are those of an empty column list: the generic names that the
    [except] branch takes from the first row change nothing. *)
Theorem normalize_rowwise (r : ResultData) (rowvals : list (list pyval)) :
  data_array r = Some (map Row rowvals) ->
  normalize r
  = Ret (map (fun values => fill_row (effective_columns r) 0 values []) rowvals) /\
  (forall e, probe_columns r = Raise e ->
             normalize r = Ret (map (fun values => fill_row [] 0 values []) rowvals)).
Proof.
  intros Hd. split; [now apply normalize_readable|].
  intros e He. rewrite (normalize_readable r rowvals Hd).
  unfold effective_columns. now rewrite He.
Qed.

Lemma normalize_rowwise_witness :
  normalize {| schema := Faulty (lit "boom"); manifest := Missing;
               data_array := Some [Row [PyInt 1]; Row [PyInt 2; PyInt 3]] |}
  = Ret [[(lit "col_0", PyInt 1)];
         [(lit "col_0", PyInt 2); (lit "col_1", PyInt 3)]].
Proof.
  exact (proj1 (normalize_rowwise
                  {| schema := Faulty (lit "boom"); manifest := Missing;
                     data_array := Some [Row [PyInt 1]; Row [PyInt 2; PyInt 3]] |}
                  [[PyInt 1]; [PyInt 2; PyInt 3]] eq_refl)).
Defined.

(* ------------------------------------------------------------------ *)
(** ** Further properties of [execute_sql_query] *)

Lemma fold_left_snoc {A B : Type} (f : A -> B) (xs : list A) :
  forall init : list B,
    fold_left (fun acc x => (acc ++ [f x])%list) xs init = (init ++ map f xs)%list.
Proof.
  induction xs as [|x xs IH]; intros init; simpl.
  - now rewrite app_nil_r.
  - now rewrite IH, <- app_assoc.
Qed.

Lemma to_list_complete {A : Type} (items : list A) : to_list (items, None) = Ret items.
Proof.
  unfold to_list, for_each. simpl.
  rewrite (fold_left_snoc (fun x : A => x) items []). now rewrite map_id.
Qed.

Lemma is_succeeded_iff (s : StatementState) : is_succeeded s = true <-> s = SUCCEEDED.
Proof. destruct s; simpl; split; intros H; try reflexivity; discriminate. Qed.

Lemma choose_warehouse_given (self : DatabricksClient) (warehouse_id : pyval) :
  truthy warehouse_id = true -> choose_warehouse self warehouse_id = Ret (inr warehouse_id).
Proof. intros H. unfold choose_warehouse. now rewrite H. Qed.

Lemma choose_warehouse_early (self : DatabricksClient) (warehouse_id early : pyval) :
  choose_warehouse self warehouse_id = Ret (inl early) -> early = no_warehouse.
Proof.
  unfold choose_warehouse. destruct (negb (truthy warehouse_id)); [|discriminate].
  destruct (warehouses_list (workspace_client self)) as [ws|e]; simpl; [|discriminate].
  destruct (to_list ws) as [[|w l]|e]; simpl; try discriminate.
  now intros [= <-].
Qed.

(** [execute_sql_query] by the replies of the SDK. *)
Lemma execute_sql_query_cases (self : DatabricksClient) (sql_query : pystr)
    (warehouse_id : pyval) :
  execute_sql_query self sql_query warehouse_id
  = Ret match choose_warehouse self warehouse_id with
        | Raise e => failure e
        | Ret (inl early) => early
        | Ret (inr w) =>
            match execute_statement (workspace_client self) w sql_query with
            | Raise e => failure e
            | Ret statement =>
                match status statement with
                | None => failure (lit "AttributeError")
                | Some st =>
                    if is_succeeded (state st) then
                      match match result statement with
                            | Some r => normalize r
                            | None => Ret []
                            end with
                      | Ret result_data =>
                          PyDict [(lit "success", PyBool true);
                                  (lit "data", PyList (map PyDict result_data));
                                  (lit "statement_id", statement_id statement);
                                  (lit "warehouse_id", w)]
                      | Raise e => failure e
                      end
                    else
                      PyDict [(lit "success", PyBool false);
                              (lit "error", PyStr (error_msg st));
                              (lit "statement_id", statement_id statement)]
                end
            end
        end.
Proof.
  unfold execute_sql_query.
  destruct (choose_warehouse self warehouse_id) as [[early|w]|e]; simpl; try reflexivity.
  destruct (execute_statement (workspace_client self) w sql_query) as [statement|e];
    simpl; try reflexivity.
  destruct (status statement) as [st|]; simpl; try reflexivity.
  destruct (is_succeeded (state st)); simpl; try reflexivity.
  destruct (match result statement with Some r => normalize r | None => Ret [] end);
    reflexivity.
Qed.

(** X5: called without a warehouse id when the SDK lists no warehouse, the
    method returns the dictionary of the error 'No SQL warehouses
    available', whatever the SDK would answer to the statement. *)
Theorem no_warehouse_no_execution (self : DatabricksClient) (sql_query : pystr)
    (warehouse_id : pyval) :
  truthy warehouse_id = false ->
  warehouses_list (workspace_client self) = Ret ([], None) ->
  execute_sql_query self sql_query warehouse_id = Ret no_warehouse.
Proof.
  intros Hw Hl. rewrite execute_sql_query_cases. unfold choose_warehouse.
  rewrite Hw, Hl. reflexivity.
Qed.

(** X6: called without a warehouse id, the method runs on the first
    warehouse the SDK lists: it returns what it returns when called with
    that warehouse's id. *)
Theorem default_warehouse_is_first (self : DatabricksClient) (sql_query : pystr)
    (warehouse_id : pyval) (first : EndpointInfo) (others : list EndpointInfo) :
  truthy warehouse_id = false ->
  warehouses_list (workspace_client self) = Ret (first :: others, None) ->
  execute_sql_query self sql_query warehouse_id
  = execute_sql_query self sql_query (endpoint_id first).
Proof.
  intros Hw Hl.
  assert (Hlisted : forall w, truthy w = false ->
                              choose_warehouse self w = Ret (inr (endpoint_id first))).
  { intros w H. unfold choose_warehouse. rewrite H, Hl. cbn [negb bind].
    now rewrite to_list_complete. }
  rewrite !execute_sql_query_cases. f_equal.
  rewrite (Hlisted warehouse_id Hw).
  destruct (truthy (endpoint_id first)) eqn:Hf.
  - now rewrite choose_warehouse_given.
  - now rewrite (Hlisted _ Hf).
Qed.

Lemma no_warehouse_no_execution_witness :
  execute_sql_query
    (client_of (with_warehouses ([], None)
                  (with_statement
                     {| status := Some {| state := SUCCEEDED; error := None |};
                        result := None;
                        statement_id := PyStr (lit "01ef") |}
                     (failing_sdk (lit "offline")))))
    (lit "SELECT 1") PyNone
  = Ret (PyDict [(lit "success", PyBool false);
                 (lit "error", PyStr (lit "No SQL warehouses available"))]).
Proof.
  exact (no_warehouse_no_execution
           (client_of (with_warehouses ([], None)
                         (with_statement
                            {| status := Some {| state := SUCCEEDED; error := None |};
                               result := None;
                               statement_id := PyStr (lit "01ef") |}
                            (failing_sdk (lit "offline")))))
           (lit "SELECT 1") PyNone eq_refl eq_refl).
Defined.

Lemma default_warehouse_is_first_witness :
  execute_sql_query
    (client_of (with_warehouses
                  ([ {| endpoint_id := PyStr (lit "wh1") |};
                     {| endpoint_id := PyStr (lit "wh2") |} ], None)
                  (failing_sdk (lit "offline"))))
    (lit "SELECT 1") (PyStr [])
  = execute_sql_query
      (client_of (with_warehouses
                    ([ {| endpoint_id := PyStr (lit "wh1") |};
                       {| endpoint_id := PyStr (lit "wh2") |} ], None)
                    (failing_sdk (lit "offline"))))
      (lit "SELECT 1") (PyStr (lit "wh1")).
Proof.
  exact (default_warehouse_is_first
           (client_of (with_warehouses
                         ([ {| endpoint_id := PyStr (lit "wh1") |};
                            {| endpoint_id := PyStr (lit "wh2") |} ], None)
                         (failing_sdk (lit "offline"))))
           (lit "SELECT 1") (PyStr [])
           {| endpoint_id := PyStr (lit "wh1") |}
           [ {| endpoint_id := PyStr (lit "wh2") |} ] eq_refl eq_refl).
Defined.

(** X7: a statement that ends in another state than SUCCEEDED is reported
    as a failure carrying the state, the server's message when there is one,
    and the statement id; the rows its reply may hold are not returned. *)
Theorem failed_statement_reported (self : DatabricksClient) (sql_query : pystr)
    (warehouse_id : pyval) (statement : StatementResponse) (st : StatementStatus) :
  truthy warehouse_id = true ->
  execute_statement (workspace_client self) warehouse_id sql_query = Ret statement ->
  status statement = Some st -> state st <> SUCCEEDED ->
  exists d,
    execute_sql_query self sql_query warehouse_id = Ret (PyDict d) /\
    dict_get d (lit "success") = Some (PyBool false) /\
    dict_get d (lit "error")
    = Some (PyStr (lit "Query failed with state: " ++ state_str (state st) ++
                   match error st with
                   | Some err => lit ", Error: " ++ message err
                   | None => []
                   end)%list) /\
    dict_get d (lit "statement_id") = Some (statement_id statement) /\
    dict_get d (lit "data") = None.
Proof.
  intros Hw Hex Hst Hs. rewrite execute_sql_query_cases.
  rewrite (choose_warehouse_given self warehouse_id Hw), Hex, Hst.
  destruct (is_succeeded (state st)) eqn:E.
  - apply is_succeeded_iff in E. contradiction.
  - eexists. split; [reflexivity|]. repeat split.
Qed.

Lemma failed_statement_reported_witness :
  exists d,
    execute_sql_query
      (client_of (with_statement
                    {| status := Some {| state := FAILED;
                                         error := Some {| message := lit "no such table" |} |};
                       result := Some {| schema := Missing; manifest := Missing;
                                         data_array := Some [Row [PyInt 1]] |};
                       statement_id := PyStr (lit "01ef") |}
                    (failing_sdk (lit "offline"))))
      (lit "SELECT * FROM t") (PyStr (lit "wh1")) = Ret (PyDict d) /\
    dict_get d (lit "error")
    = Some (PyStr (lit "Query failed with state: StatementState.FAILED, Error: no such table")) /\
    dict_get d (lit "data") = None.
Proof.
  destruct (failed_statement_reported
              (client_of (with_statement
                            {| status := Some {| state := FAILED;
                                                 error := Some {| message := lit "no such table" |} |};
                               result := Some {| schema := Missing; manifest := Missing;
                                                 data_array := Some [Row [PyInt 1]] |};
                               statement_id := PyStr (lit "01ef") |}
                            (failing_sdk (lit "offline"))))
              (lit "SELECT * FROM t") (PyStr (lit "wh1")) _ _
              eq_refl eq_refl eq_refl ltac:(discriminate))
    as (d & Hd & _ & Herr & _ & Hdata).
  exists d. split; [exact Hd|]. split; [exact Herr | exact Hdata].
Defined.

(** X8: the returned dictionary has [success] set to [True] exactly when a
    warehouse was chosen, the SDK returned a statement in state SUCCEEDED,
    and every row of its result could be read. *)
Theorem success_iff (self : DatabricksClient) (sql_query : pystr) (warehouse_id : pyval) :
  (exists v, execute_sql_query self sql_query warehouse_id = Ret v /\
             success_flag v = Some (PyBool true)) <->
  (exists w statement st,
     choose_warehouse self warehouse_id = Ret (inr w) /\
     execute_statement (workspace_client self) w sql_query = Ret statement /\
     status statement = Some st /\ state st = SUCCEEDED /\
     forall r rows, result statement = Some r -> data_array r = Some rows ->
                    ~ In NullRow rows).
Proof.
  rewrite execute_sql_query_cases. split.
  - intros (v & Hv & Hflag). injection Hv as <-.
    destruct (choose_warehouse self warehouse_id) as [[early|w]|e] eqn:Hc.
    + apply choose_warehouse_early in Hc. subst early. discriminate Hflag.
    + destruct (execute_statement (workspace_client self) w sql_query)
        as [statement|e] eqn:Hex; [|discriminate Hflag].
      destruct (status statement) as [st|] eqn:Hst; [|discriminate Hflag].
      destruct (is_succeeded (state st)) eqn:Hs; [|discriminate Hflag].
      exists w, statement, st. repeat split; trivial; [now apply is_succeeded_iff|].
      intros r rows Hr Hd Hin. rewrite Hr in Hflag.
      destruct (proj2 (normalize_raises r)) as [e He]; [now exists rows|].
      rewrite He in Hflag. discriminate Hflag.
    + discriminate Hflag.
  - intros (w & statement & st & Hc & Hex & Hst & Hs & Hrows).
    rewrite Hc, Hex, Hst. rewrite (proj2 (is_succeeded_iff _) Hs).
    destruct (result statement) as [r|] eqn:Hr.
    + destruct (normalize r) as [recs|e] eqn:Hn.
      * eexists. split; reflexivity.
      * exfalso. destruct (proj1 (normalize_raises r)) as (rows & Hd & Hin);
          [now exists e|]. exact (Hrows r rows eq_refl Hd Hin).
    + eexists. split; reflexivity.
Qed.

(** X9: a statement that succeeded without a result, or with a result that
    has no [data_array], gives a success with no data. *)
Theorem succeeded_without_rows (self : DatabricksClient) (sql_query : pystr)
    (warehouse_id : pyval) (statement : StatementResponse) (st : StatementStatus) :
  truthy warehouse_id = true ->
  execute_statement (workspace_client self) warehouse_id sql_query = Ret statement ->
  status statement = Some st -> state st = SUCCEEDED ->
  result statement = None \/ (exists r, result statement = Some r /\ data_array r = None) ->
  execute_sql_query self sql_query warehouse_id
  = Ret (PyDict [(lit "success", PyBool true);
                 (lit "data", PyList []);
                 (lit "statement_id", statement_id statement);
                 (lit "warehouse_id", warehouse_id)]).
Proof.
  intros Hw Hex Hst Hs Hres. rewrite execute_sql_query_cases.
  rewrite (choose_warehouse_given self warehouse_id Hw), Hex, Hst.
  rewrite (proj2 (is_succeeded_iff _) Hs).
  destruct Hres as [-> | (r & -> & Hd)]; [reflexivity|].
  unfold normalize. now rewrite Hd.
Qed.

Lemma succeeded_without_rows_witness :
  execute_sql_query
    (client_of (with_statement
                  {| status := Some {| state := SUCCEEDED; error := None |};
                     result := None;
                     statement_id := PyStr (lit "01ef") |}
                  (failing_sdk (lit "offline"))))
    (lit "CREATE TABLE t (a INT)") (PyStr (lit "wh1"))
  = Ret (PyDict [(lit "success", PyBool true);
                 (lit "data", PyList []);
                 (lit "statement_id", PyStr (lit "01ef"));
                 (lit "warehouse_id", PyStr (lit "wh1"))]).
Proof.
  exact (succeeded_without_rows
           (client_of (with_statement
                         {| status := Some {| state := SUCCEEDED; error := None |};
                            result := None;
                            statement_id := PyStr (lit "01ef") |}
                         (failing_sdk (lit "offline"))))
           (lit "CREATE TABLE t (a INT)") (PyStr (lit "wh1")) _ _
           eq_refl eq_refl eq_refl eq_refl (or_introl eq_refl)).
Defined.

(* ------------------------------------------------------------------ *)
(** ** Further properties of the other methods *)






(** X13: creating a notebook is uploading the UTF-8 bytes of its content:
    for a content that UTF-8 can encode, the two methods make the same SDK
    call and their dictionaries agree on every key but [message].  A content
    that holds a surrogate makes [create_notebook_from_template] fail
    whatever the SDK is. *)
Theorem notebook_is_upload (b64encode : pybytes -> pystr) (notebook_path : pystr)
    (template_content : pystr) (overwrite : bool) :
  (forall b self,
     encode_utf8 template_content = Ret b ->
     exists d1 d2,
       create_notebook_from_template b64encode self notebook_path template_content overwrite
       = Ret (PyDict d1) /\
       upload_file_to_workspace b64encode self b notebook_path overwrite = Ret (PyDict d2) /\
       forall k, k <> lit "message" -> dict_get d1 k = dict_get d2 k) /\
  (Exists surrogate template_content ->
   exists e, forall self,
     create_notebook_from_template b64encode self notebook_path template_content overwrite
     = Ret (failure e)).
Proof.
  split.
  - intros b self Hb.
    unfold create_notebook_from_template, upload_file_to_workspace. rewrite Hb. simpl.
    destruct (workspace_upload (workspace_client self) notebook_path (b64encode b)
                overwrite) as [[]|e]; simpl.
    + do 2 eexists. split; [reflexivity|]. split; [reflexivity|].
      intros k Hk. cbn [dict_get].
      destruct (pystr_eq_dec (lit "success") k); [reflexivity|].
      destruct (pystr_eq_dec (lit "path") k); [reflexivity|].
      destruct (pystr_eq_dec (lit "message") k) as [E|_]; [|reflexivity].
      symmetry in E. contradiction.
    + do 2 eexists. split; [reflexivity|]. split; [reflexivity|]. reflexivity.
  - intros Hsur. apply encode_utf8_raises in Hsur. destruct Hsur as [e He].
    exists e. intros self. unfold create_notebook_from_template. now rewrite He.
Qed.

Lemma notebook_is_upload_witness :
  (exists d1 d2,
     create_notebook_from_template (fun _ => [])
       (client_of (with_upload (failing_sdk (lit "offline")))) (lit "/nb") (lit "x = 1") true
     = Ret (PyDict d1) /\
     upload_file_to_workspace (fun _ => [])
       (client_of (with_upload (failing_sdk (lit "offline")))) [120; 32; 61; 32; 49]
       (lit "/nb") true
     = Ret (PyDict d2) /\
     dict_get d1 (lit "success") = dict_get d2 (lit "success")) /\
  (exists e, forall self,
     create_notebook_from_template (fun _ => []) self (lit "/nb") [0x70; 0xD800] true
     = Ret (failure e)).
Proof.
  split.
  - destruct (proj1 (notebook_is_upload (fun _ => []) (lit "/nb") (lit "x = 1") true)
                [120; 32; 61; 32; 49]
                (client_of (with_upload (failing_sdk (lit "offline")))) eq_refl)
      as (d1 & d2 & H1 & H2 & H3).
    exists d1, d2. split; [exact H1|]. split; [exact H2|].
    apply H3. vm_compute. discriminate.
  - apply (proj2 (notebook_is_upload (fun _ => []) (lit "/nb") [0x70; 0xD800] true)).
    apply Exists_cons_tl. apply Exists_cons_hd. unfold surrogate. lia.
Defined.

(* ------------------------------------------------------------------ *)
(** ** The constructor *)

Lemma provided_value (s : option pystr) :
  provided s = true -> s = Some (str_value s) /\ str_value s <> [].
Proof.
  destruct s as [[|c s]|]; simpl; intros H; try discriminate.
  split; [reflexivity | discriminate].
Qed.

(** X14: the constructor raises its ValueError, whatever the SDK would do,
    exactly when the host or the token is given neither by a non-empty
    argument nor by a non-empty environment variable. *)
Theorem constructor_requires_host_and_token (getenv : environ)
    (host_arg token_arg : option pystr) :
  (forall connect,
     __init__ connect getenv host_arg token_arg
     = Raise (lit "Databricks host and token must be provided")) <->
  (provided host_arg = false /\ provided (getenv (lit "DATABRICKS_HOST")) = false) \/
  (provided token_arg = false /\ provided (getenv (lit "DATABRICKS_TOKEN")) = false).
Proof.
  unfold __init__, py_or. cbv zeta. split.
  - intros H. specialize (H (fun _ _ => Ret (failing_sdk []))).
    destruct (provided host_arg) eqn:Hh;
      [|destruct (provided (getenv (lit "DATABRICKS_HOST"))) eqn:Heh; [|now left]];
      (destruct (provided token_arg) eqn:Ht;
       [|destruct (provided (getenv (lit "DATABRICKS_TOKEN"))) eqn:Het; [|now right]]);
      rewrite ?Hh, ?Heh, ?Ht, ?Het in H; simpl in H; discriminate H.
  - intros [[Hh Heh] | [Ht Het]] connect.
    + now rewrite Hh, Heh.
    + rewrite Ht, Het. simpl. now rewrite orb_true_r.
Qed.

(** X15: a client that the constructor returns has a non-empty host and a
    non-empty token; each is the argument when that is non-empty and the
    environment variable otherwise; its SDK client was made from this host
    and token, and its Authorization header is 'Bearer ' followed by the
    token. *)
Theorem constructed_client (connect : pystr -> pystr -> exc WorkspaceClient)
    (getenv : environ) (host_arg token_arg : option pystr) (inst : Instance) :
  __init__ connect getenv host_arg token_arg = Ret inst ->
  host (fields inst) <> [] /\
  token (fields inst) <> [] /\
  Some (host (fields inst))
  = (if provided host_arg then host_arg else getenv (lit "DATABRICKS_HOST")) /\
  Some (token (fields inst))
  = (if provided token_arg then token_arg else getenv (lit "DATABRICKS_TOKEN")) /\
  connect (host (fields inst)) (token (fields inst))
  = Ret (workspace_client (fields inst)) /\
  dict_get (headers inst) (lit "Authorization")
  = Some (PyStr (lit "Bearer " ++ token (fields inst))%list).
Proof.
  unfold __init__. cbv zeta.
  fold (py_or host_arg (getenv (lit "DATABRICKS_HOST"))).
  fold (py_or token_arg (getenv (lit "DATABRICKS_TOKEN"))).
  set (h := py_or host_arg (getenv (lit "DATABRICKS_HOST"))).
  set (t := py_or token_arg (getenv (lit "DATABRICKS_TOKEN"))).
  destruct (provided h) eqn:Hh; [|discriminate].
  destruct (provided t) eqn:Ht; [|discriminate].
  simpl orb. cbv iota.
  destruct (connect (str_value h) (str_value t)) as [wc|e] eqn:Hc; [|discriminate].
  intros [= <-]. simpl.
  destruct (provided_value h Hh) as [Eh Nh]. destruct (provided_value t Ht) as [Et Nt].
  repeat split; trivial; try (now symmetry).
Qed.

Lemma constructed_client_witness :
  exists inst,
    __init__ (fun _ _ => Ret (failing_sdk (lit "offline")))
      (fun name => if pystr_eq_dec name (lit "DATABRICKS_TOKEN")
                   then Some (lit "dapi01") else None)
      (Some (lit "https://adb.example.net")) (Some [])
    = Ret inst /\
    host (fields inst) <> [] /\
    Some (host (fields inst)) = Some (lit "https://adb.example.net") /\
    Some (token (fields inst)) = Some (lit "dapi01").
Proof.
  eexists. split; [reflexivity|].
  destruct (constructed_client (fun _ _ => Ret (failing_sdk (lit "offline")))
              (fun name => if pystr_eq_dec name (lit "DATABRICKS_TOKEN")
                           then Some (lit "dapi01") else None)
              (Some (lit "https://adb.example.net")) (Some []) _ eq_refl)
    as (Hn & _ & Hh & Ht & _).
  split; [exact Hn|]. split; [exact Hh | exact Ht].
Defined.

(* ------------------------------------------------------------------ *)
(** ** The method and the normalization together *)

(** X16: for a statement that succeeded with readable rows, the [data] of
    the returned dictionary holds one record per row, in the order of the
    rows, each built from its row and the columns that the schema gave. *)
Theorem query_returns_rowwise_records (self : DatabricksClient) (sql_query : pystr)
    (warehouse_id : pyval) (statement : StatementResponse) (st : StatementStatus)
    (r : ResultData) (rowvals : list (list pyval)) :
  truthy warehouse_id = true ->
  execute_statement (workspace_client self) warehouse_id sql_query = Ret statement ->
  status statement = Some st -> state st = SUCCEEDED ->
  result statement = Some r -> data_array r = Some (map Row rowvals) ->
  execute_sql_query self sql_query warehouse_id
  = Ret (PyDict
           [(lit "success", PyBool true);
            (lit "data",
             PyList (map (fun values =>
                            PyDict (fill_row (effective_columns r) 0 values []))
                         rowvals));
            (lit "statement_id", statement_id statement);
            (lit "warehouse_id", warehouse_id)]).
Proof.
  intros Hw Hex Hst Hs Hr Hd. rewrite execute_sql_query_cases.
  rewrite (choose_warehouse_given self warehouse_id Hw), Hex, Hst.
  rewrite (proj2 (is_succeeded_iff _) Hs), Hr.
  rewrite (normalize_readable r rowvals Hd). now rewrite map_map.
Qed.

Lemma query_returns_rowwise_records_witness :
  execute_sql_query
    (client_of (with_statement
                  {| status := Some {| state := SUCCEEDED; error := None |};
                     result := Some {| schema := Has (schema_of [lit "n"]);
                                       manifest := Missing;
                                       data_array := Some [Row [PyInt 1]; Row [PyInt 2]] |};
                     statement_id := PyStr (lit "01ef") |}
                  (failing_sdk (lit "offline"))))
    (lit "SELECT n FROM t") (PyStr (lit "wh1"))
  = Ret (PyDict [(lit "success", PyBool true);
                 (lit "data", PyList [PyDict [(lit "n", PyInt 1)];
                                      PyDict [(lit "n", PyInt 2)]]);
                 (lit "statement_id", PyStr (lit "01ef"));
                 (lit "warehouse_id", PyStr (lit "wh1"))]).
Proof.
  exact (query_returns_rowwise_records
           (client_of (with_statement
                         {| status := Some {| state := SUCCEEDED; error := None |};
                            result := Some {| schema := Has (schema_of [lit "n"]);
                                              manifest := Missing;
                                              data_array := Some [Row [PyInt 1]; Row [PyInt 2]] |};
                            statement_id := PyStr (lit "01ef") |}
                         (failing_sdk (lit "offline"))))
           (lit "SELECT n FROM t") (PyStr (lit "wh1")) _ _ _ [[PyInt 1]; [PyInt 2]]
           eq_refl eq_refl eq_refl eq_refl eq_refl eq_refl).
Defined.
